(** * Material color theme provider: theme builder, token projector, theme store

    A shallow embedding of [src/theme-utils.ts], [src/types.ts] and
    [src/material-theme-provider.tsx] (with the two earlier revisions of the
    provider and the tone-stop revision of [getThemeTokens]), over an abstract
    interface of the color library [@material/material-color-utilities]. *)

From Stdlib Require Import ZArith QArith List String Ascii Bool Lia.
Import ListNotations.
Local Open Scope Z_scope.
Local Open Scope string_scope.
Local Open Scope list_scope.

(** ** JavaScript values that the code relies on *)

(** A thrown value: an [Error] object with its [name] and [message]. *)
Record exn : Type := MkExn { exn_name : string; exn_message : string }.

(** [new Error(message)]. *)
Definition Error (message : string) : exn :=
  {| exn_name := "Error"; exn_message := message |}.

(** The outcome of evaluating an expression: a value, or a thrown exception. *)
Inductive result (A : Type) : Type :=
| Ok (a : A)
| Throw (e : exn).
Arguments Ok {A} a.
Arguments Throw {A} e.

Definition ret {A : Type} (a : A) : result A := Ok a.

Definition bind {A B : Type} (m : result A) (k : A -> result B) : result B :=
  match m with
  | Ok a => k a
  | Throw e => Throw e
  end.

Declare Scope js_scope.
Delimit Scope js_scope with js.
Notation "x <- m ;; k" := (bind m (fun x => k))
  (at level 61, m at next level, right associativity) : js_scope.
Notation "' pat <- m ;; k" := (bind m (fun x => match x with pat => k end))
  (at level 61, pat pattern, m at next level, right associativity) : js_scope.
Local Open Scope js_scope.

(** [Array.prototype.map] with a callback that may throw: elements are
    visited left to right and the first exception aborts the traversal. *)
Fixpoint mapM {A B : Type} (f : A -> result B) (l : list A) : result (list B) :=
  match l with
  | [] => ret []
  | x :: l' =>
      y <- f x ;;
      ys <- mapM f l' ;;
      ret (y :: ys)
  end.

Definition is_Ok {A : Type} (r : result A) : bool :=
  match r with Ok _ => true | Throw _ => false end.

(** [Map<string, string>]: entries in insertion order, one entry per key.
    [set] on a present key replaces the value and keeps the position. *)
Module JsMap.
Definition t : Type := list (string * string).

Definition empty : t := [].

Fixpoint set (k v : string) (m : t) : t :=
  match m with
  | [] => [(k, v)]
  | (k', v') :: m' =>
      if String.eqb k' k then (k', v) :: m' else (k', v') :: set k v m'
  end.

(** [new Map(iterable)]: each entry of the iterable is [set] in turn. *)
Definition new (iterable : list (string * string)) : t :=
  fold_left (fun m kv => set (fst kv) (snd kv) m) iterable empty.

Fixpoint get (k : string) (m : t) : option string :=
  match m with
  | [] => None
  | (k', v') :: m' => if String.eqb k' k then Some v' else get k m'
  end.

Definition entries (m : t) : list (string * string) := m.
Definition keys (m : t) : list string := map fst m.
Definition values (m : t) : list string := map snd m.
Definition size (m : t) : Z := Z.of_nat (List.length m).
End JsMap.

(** ** Types of the color library used by the code *)

Module TonalPalette.
(** [palette.tone(n)] gives the ARGB color of the palette at tone [n]. *)
Record t : Type := Mk { tone : Z -> Z }.
End TonalPalette.

Module DynamicScheme.
(** The members of a scheme that the code reads: six tonal palettes and
    the color roles (ARGB numbers). *)
Record t : Type := Mk {
  primaryPalette : TonalPalette.t;
  secondaryPalette : TonalPalette.t;
  tertiaryPalette : TonalPalette.t;
  neutralPalette : TonalPalette.t;
  neutralVariantPalette : TonalPalette.t;
  errorPalette : TonalPalette.t;
  background : Z;
  error : Z;
  errorContainer : Z;
  inverseOnSurface : Z;
  inversePrimary : Z;
  inverseSurface : Z;
  onBackground : Z;
  onError : Z;
  onErrorContainer : Z;
  onPrimary : Z;
  onPrimaryContainer : Z;
  onPrimaryFixed : Z;
  onPrimaryFixedVariant : Z;
  onSecondary : Z;
  onSecondaryContainer : Z;
  onSecondaryFixed : Z;
  onSecondaryFixedVariant : Z;
  onSurface : Z;
  onSurfaceVariant : Z;
  onTertiary : Z;
  onTertiaryContainer : Z;
  onTertiaryFixed : Z;
  onTertiaryFixedVariant : Z;
  outline : Z;
  outlineVariant : Z;
  primary : Z;
  primaryContainer : Z;
  primaryFixed : Z;
  primaryFixedDim : Z;
  scrim : Z;
  secondary : Z;
  secondaryContainer : Z;
  secondaryFixed : Z;
  secondaryFixedDim : Z;
  shadow : Z;
  surface : Z;
  surfaceBright : Z;
  surfaceContainer : Z;
  surfaceContainerHigh : Z;
  surfaceContainerHighest : Z;
  surfaceContainerLow : Z;
  surfaceContainerLowest : Z;
  surfaceDim : Z;
  surfaceTint : Z;
  surfaceVariant : Z;
  tertiary : Z;
  tertiaryContainer : Z;
  tertiaryFixed : Z;
  tertiaryFixedDim : Z
}.
End DynamicScheme.

Module CustomColor.
Record t : Type := Mk { value : Z; name : string; blend : bool }.
End CustomColor.

Module ColorGroup.
Record t : Type := Mk {
  color : Z;
  onColor : Z;
  colorContainer : Z;
  onColorContainer : Z
}.
End ColorGroup.

Module CustomColorGroup.
Record t : Type := Mk {
  color : CustomColor.t;
  value : Z;
  light : ColorGroup.t;
  dark : ColorGroup.t
}.
End CustomColorGroup.

(** The entry points of the color library that the code calls, each a
    function of its arguments.  Calls that build or parse may throw;
    [hexFromArgb] and the accessors of a built scheme are reads.  A contrast
    level is a JavaScript number handed to the library unchanged; it is
    carried as a rational. *)
Class PaletteEngine : Type := {
  Hct : Type;
  Hct_fromInt : Z -> result Hct;
  SchemeContent : Hct -> bool -> Q -> result DynamicScheme.t;
  SchemeExpressive : Hct -> bool -> Q -> result DynamicScheme.t;
  SchemeFidelity : Hct -> bool -> Q -> result DynamicScheme.t;
  SchemeFruitSalad : Hct -> bool -> Q -> result DynamicScheme.t;
  SchemeMonochrome : Hct -> bool -> Q -> result DynamicScheme.t;
  SchemeNeutral : Hct -> bool -> Q -> result DynamicScheme.t;
  SchemeRainbow : Hct -> bool -> Q -> result DynamicScheme.t;
  SchemeTonalSpot : Hct -> bool -> Q -> result DynamicScheme.t;
  SchemeVibrant : Hct -> bool -> Q -> result DynamicScheme.t;
  customColor : Z -> CustomColor.t -> result CustomColorGroup.t;
  argbFromHex : string -> result Z;
  hexFromArgb : Z -> string
}.

(** ** [src/types.ts] *)

Module Variant.
(** A numeric [enum]: at run time a variant is a number. *)
Definition t : Type := Z.
Abbreviation MONOCHROME := 0%Z (only parsing).
Abbreviation NEUTRAL := 1%Z (only parsing).
Abbreviation TONAL_SPOT := 2%Z (only parsing).
Abbreviation VIBRANT := 3%Z (only parsing).
Abbreviation EXPRESSIVE := 4%Z (only parsing).
Abbreviation FIDELITY := 5%Z (only parsing).
Abbreviation CONTENT := 6%Z (only parsing).
Abbreviation RAINBOW := 7%Z (only parsing).
Abbreviation FRUIT_SALAD := 8%Z (only parsing).

(** The members of the enum. *)
Definition members : list t :=
  [MONOCHROME; NEUTRAL; TONAL_SPOT; VIBRANT; EXPRESSIVE;
   FIDELITY; CONTENT; RAINBOW; FRUIT_SALAD].
End Variant.

Module Schemes.
Record t : Type := Mk { light : DynamicScheme.t; dark : DynamicScheme.t }.
End Schemes.

Module MaterialTheme.
Record t : Type := Mk {
  source : Z;
  variant : Variant.t;
  schemes : Schemes.t;
  customColors : list CustomColorGroup.t
}.
End MaterialTheme.

(** ** [src/theme-utils.ts] *)

Section ThemeUtils.
Context {E : PaletteEngine}.

(** [createMaterialTheme(source, variant = Variant.TONAL_SPOT,
    contrastLevel = 0.0, customColors = [])].  Both revisions of
    [theme-utils.ts] have the same text for it. *)
Definition createMaterialTheme
    (source : Z) (variant : Variant.t) (contrastLevel : Q)
    (customColors : list CustomColor.t) : result MaterialTheme.t :=
  (* Initialize with default tonal spot schemes *)
  h <- Hct_fromInt source ;;
  lightScheme <- SchemeTonalSpot h false contrastLevel ;;
  h <- Hct_fromInt source ;;
  darkScheme <- SchemeTonalSpot h true contrastLevel ;;
  (* Generate appropriate scheme based on variant *)
  '(lightScheme, darkScheme) <-
    match variant with
    | Variant.MONOCHROME =>
        h <- Hct_fromInt source ;;
        lightScheme <- SchemeMonochrome h false contrastLevel ;;
        h <- Hct_fromInt source ;;
        darkScheme <- SchemeMonochrome h true contrastLevel ;;
        ret (lightScheme, darkScheme)
    | Variant.NEUTRAL =>
        h <- Hct_fromInt source ;;
        lightScheme <- SchemeNeutral h false contrastLevel ;;
        h <- Hct_fromInt source ;;
        darkScheme <- SchemeNeutral h true contrastLevel ;;
        ret (lightScheme, darkScheme)
    | Variant.TONAL_SPOT =>
        h <- Hct_fromInt source ;;
        lightScheme <- SchemeTonalSpot h false contrastLevel ;;
        h <- Hct_fromInt source ;;
        darkScheme <- SchemeTonalSpot h true contrastLevel ;;
        ret (lightScheme, darkScheme)
    | Variant.VIBRANT =>
        h <- Hct_fromInt source ;;
        lightScheme <- SchemeVibrant h false contrastLevel ;;
        h <- Hct_fromInt source ;;
        darkScheme <- SchemeVibrant h true contrastLevel ;;
        ret (lightScheme, darkScheme)
    | Variant.EXPRESSIVE =>
        h <- Hct_fromInt source ;;
        lightScheme <- SchemeExpressive h false contrastLevel ;;
        h <- Hct_fromInt source ;;
        darkScheme <- SchemeExpressive h true contrastLevel ;;
        ret (lightScheme, darkScheme)
    | Variant.FIDELITY =>
        h <- Hct_fromInt source ;;
        lightScheme <- SchemeFidelity h false contrastLevel ;;
        h <- Hct_fromInt source ;;
        darkScheme <- SchemeFidelity h true contrastLevel ;;
        ret (lightScheme, darkScheme)
    | Variant.CONTENT =>
        h <- Hct_fromInt source ;;
        lightScheme <- SchemeContent h false contrastLevel ;;
        h <- Hct_fromInt source ;;
        darkScheme <- SchemeContent h true contrastLevel ;;
        ret (lightScheme, darkScheme)
    | Variant.RAINBOW =>
        h <- Hct_fromInt source ;;
        lightScheme <- SchemeRainbow h false contrastLevel ;;
        h <- Hct_fromInt source ;;
        darkScheme <- SchemeRainbow h true contrastLevel ;;
        ret (lightScheme, darkScheme)
    | Variant.FRUIT_SALAD =>
        h <- Hct_fromInt source ;;
        lightScheme <- SchemeFruitSalad h false contrastLevel ;;
        h <- Hct_fromInt source ;;
        darkScheme <- SchemeFruitSalad h true contrastLevel ;;
        ret (lightScheme, darkScheme)
    | _ => ret (lightScheme, darkScheme)
    end ;;
  customColors <- mapM (fun c => customColor source c) customColors ;;
  ret {| MaterialTheme.source := source;
         MaterialTheme.variant := variant;
         MaterialTheme.schemes :=
           {| Schemes.light := lightScheme; Schemes.dark := darkScheme |};
         MaterialTheme.customColors := customColors |}.

(** The default values of the optional parameters. *)
Definition default_variant : Variant.t := Variant.TONAL_SPOT.
Definition default_contrastLevel : Q := 0%Q.
Definition default_customColors : list CustomColor.t := [].

Definition scheme_of (theme : MaterialTheme.t) (isDark : bool) : DynamicScheme.t :=
  if isDark then theme.(MaterialTheme.schemes).(Schemes.dark)
  else theme.(MaterialTheme.schemes).(Schemes.light).

End ThemeUtils.

(** [getThemeTokens] of [src/theme-utils.ts], first revision: every token
    reads one color role of the scheme. *)
Module RoleDirect.
Section WithEngine.
Context {E : PaletteEngine}.

Definition getThemeTokens (theme : MaterialTheme.t) (isDark : bool) : JsMap.t :=
  let scheme :=
    if isDark then theme.(MaterialTheme.schemes).(Schemes.dark)
    else theme.(MaterialTheme.schemes).(Schemes.light) in
  JsMap.new [
    ("--md-sys-color-background", hexFromArgb scheme.(DynamicScheme.background));
    ("--md-sys-color-error", hexFromArgb scheme.(DynamicScheme.error));
    ("--md-sys-color-error-container", hexFromArgb scheme.(DynamicScheme.errorContainer));
    ("--md-sys-color-inverse-on-surface", hexFromArgb scheme.(DynamicScheme.inverseOnSurface));
    ("--md-sys-color-inverse-primary", hexFromArgb scheme.(DynamicScheme.inversePrimary));
    ("--md-sys-color-inverse-surface", hexFromArgb scheme.(DynamicScheme.inverseSurface));
    ("--md-sys-color-on-background", hexFromArgb scheme.(DynamicScheme.onBackground));
    ("--md-sys-color-on-error", hexFromArgb scheme.(DynamicScheme.onError));
    ("--md-sys-color-on-error-container", hexFromArgb scheme.(DynamicScheme.onErrorContainer));
    ("--md-sys-color-on-primary", hexFromArgb scheme.(DynamicScheme.onPrimary));
    ("--md-sys-color-on-primary-container", hexFromArgb scheme.(DynamicScheme.onPrimaryContainer));
    ("--md-sys-color-on-primary-fixed", hexFromArgb scheme.(DynamicScheme.onPrimaryFixed));
    ("--md-sys-color-on-primary-fixed-variant", hexFromArgb scheme.(DynamicScheme.onPrimaryFixedVariant));
    ("--md-sys-color-on-secondary", hexFromArgb scheme.(DynamicScheme.onSecondary));
    ("--md-sys-color-on-secondary-container", hexFromArgb scheme.(DynamicScheme.onSecondaryContainer));
    ("--md-sys-color-on-secondary-fixed", hexFromArgb scheme.(DynamicScheme.onSecondaryFixed));
    ("--md-sys-color-on-secondary-fixed-variant", hexFromArgb scheme.(DynamicScheme.onSecondaryFixedVariant));
    ("--md-sys-color-on-surface", hexFromArgb scheme.(DynamicScheme.onSurface));
    ("--md-sys-color-on-surface-variant", hexFromArgb scheme.(DynamicScheme.onSurfaceVariant));
    ("--md-sys-color-on-tertiary", hexFromArgb scheme.(DynamicScheme.onTertiary));
    ("--md-sys-color-on-tertiary-container", hexFromArgb scheme.(DynamicScheme.onTertiaryContainer));
    ("--md-sys-color-on-tertiary-fixed", hexFromArgb scheme.(DynamicScheme.onTertiaryFixed));
    ("--md-sys-color-on-tertiary-fixed-variant", hexFromArgb scheme.(DynamicScheme.onTertiaryFixedVariant));
    ("--md-sys-color-outline", hexFromArgb scheme.(DynamicScheme.outline));
    ("--md-sys-color-outline-variant", hexFromArgb scheme.(DynamicScheme.outlineVariant));
    ("--md-sys-color-primary", hexFromArgb scheme.(DynamicScheme.primary));
    ("--md-sys-color-primary-container", hexFromArgb scheme.(DynamicScheme.primaryContainer));
    ("--md-sys-color-primary-fixed", hexFromArgb scheme.(DynamicScheme.primaryFixed));
    ("--md-sys-color-primary-fixed-dim", hexFromArgb scheme.(DynamicScheme.primaryFixedDim));
    ("--md-sys-color-scrim", hexFromArgb scheme.(DynamicScheme.scrim));
    ("--md-sys-color-secondary", hexFromArgb scheme.(DynamicScheme.secondary));
    ("--md-sys-color-secondary-container", hexFromArgb scheme.(DynamicScheme.secondaryContainer));
    ("--md-sys-color-secondary-fixed", hexFromArgb scheme.(DynamicScheme.secondaryFixed));
    ("--md-sys-color-secondary-fixed-dim", hexFromArgb scheme.(DynamicScheme.secondaryFixedDim));
    ("--md-sys-color-shadow", hexFromArgb scheme.(DynamicScheme.shadow));
    ("--md-sys-color-surface", hexFromArgb scheme.(DynamicScheme.surface));
    ("--md-sys-color-surface-bright", hexFromArgb scheme.(DynamicScheme.surfaceBright));
    ("--md-sys-color-surface-container", hexFromArgb scheme.(DynamicScheme.surfaceContainer));
    ("--md-sys-color-surface-container-high", hexFromArgb scheme.(DynamicScheme.surfaceContainerHigh));
    ("--md-sys-color-surface-container-highest", hexFromArgb scheme.(DynamicScheme.surfaceContainerHighest));
    ("--md-sys-color-surface-container-low", hexFromArgb scheme.(DynamicScheme.surfaceContainerLow));
    ("--md-sys-color-surface-container-lowest", hexFromArgb scheme.(DynamicScheme.surfaceContainerLowest));
    ("--md-sys-color-surface-dim", hexFromArgb scheme.(DynamicScheme.surfaceDim));
    ("--md-sys-color-surface-tint", hexFromArgb scheme.(DynamicScheme.surfaceTint));
    ("--md-sys-color-surface-variant", hexFromArgb scheme.(DynamicScheme.surfaceVariant));
    ("--md-sys-color-tertiary", hexFromArgb scheme.(DynamicScheme.tertiary));
    ("--md-sys-color-tertiary-container", hexFromArgb scheme.(DynamicScheme.tertiaryContainer));
    ("--md-sys-color-tertiary-fixed", hexFromArgb scheme.(DynamicScheme.tertiaryFixed));
    ("--md-sys-color-tertiary-fixed-dim", hexFromArgb scheme.(DynamicScheme.tertiaryFixedDim))
  ].

End WithEngine.
End RoleDirect.

(** [getThemeTokens] of [src/theme-utils.ts], second revision: every token
    reads a tone stop of one of the scheme's tonal palettes. *)
Module ToneDirect.
Section WithEngine.
Context {E : PaletteEngine}.

Local Abbreviation tone := TonalPalette.tone.

(** The two local tables of [getThemeTokens], as functions of the scheme
    selected for the mode. *)
Definition lightColors (scheme : DynamicScheme.t) : JsMap.t :=
  (* Extract color palettes from scheme *)
  let primary := scheme.(DynamicScheme.primaryPalette) in
  let secondary := scheme.(DynamicScheme.secondaryPalette) in
  let tertiary := scheme.(DynamicScheme.tertiaryPalette) in
  let neutral := scheme.(DynamicScheme.neutralPalette) in
  let neutralVariant := scheme.(DynamicScheme.neutralVariantPalette) in
  let error := scheme.(DynamicScheme.errorPalette) in
  JsMap.new [
    ("--md-sys-color-background", hexFromArgb (tone neutral 98));
    ("--md-sys-color-error", hexFromArgb (tone error 40));
    ("--md-sys-color-error-container", hexFromArgb (tone error 90));
    ("--md-sys-color-inverse-on-surface", hexFromArgb (tone neutral 95));
    ("--md-sys-color-inverse-primary", hexFromArgb (tone primary 80));
    ("--md-sys-color-inverse-surface", hexFromArgb (tone neutral 20));
    ("--md-sys-color-on-background", hexFromArgb (tone neutral 10));
    ("--md-sys-color-on-error", hexFromArgb (tone error 100));
    ("--md-sys-color-on-error-container", hexFromArgb (tone error 10));
    ("--md-sys-color-on-primary", hexFromArgb (tone primary 100));
    ("--md-sys-color-on-primary-container", hexFromArgb (tone primary 10));
    ("--md-sys-color-on-primary-fixed", hexFromArgb (tone primary 10));
    ("--md-sys-color-on-primary-fixed-variant", hexFromArgb (tone primary 30));
    ("--md-sys-color-on-secondary", hexFromArgb (tone secondary 100));
    ("--md-sys-color-on-secondary-container", hexFromArgb (tone secondary 10));
    ("--md-sys-color-on-secondary-fixed", hexFromArgb (tone secondary 10));
    ("--md-sys-color-on-secondary-fixed-variant", hexFromArgb (tone secondary 30));
    ("--md-sys-color-on-surface", hexFromArgb (tone neutral 10));
    ("--md-sys-color-on-surface-variant", hexFromArgb (tone neutralVariant 30));
    ("--md-sys-color-on-tertiary", hexFromArgb (tone tertiary 100));
    ("--md-sys-color-on-tertiary-container", hexFromArgb (tone tertiary 10));
    ("--md-sys-color-on-tertiary-fixed", hexFromArgb (tone tertiary 10));
    ("--md-sys-color-on-tertiary-fixed-variant", hexFromArgb (tone tertiary 30));
    ("--md-sys-color-outline", hexFromArgb (tone neutralVariant 50));
    ("--md-sys-color-outline-variant", hexFromArgb (tone neutralVariant 80));
    ("--md-sys-color-primary", hexFromArgb (tone primary 40));
    ("--md-sys-color-primary-container", hexFromArgb (tone primary 90));
    ("--md-sys-color-primary-fixed", hexFromArgb (tone primary 90));
    ("--md-sys-color-primary-fixed-dim", hexFromArgb (tone primary 80));
    ("--md-sys-color-scrim", hexFromArgb (tone neutral 0));
    ("--md-sys-color-secondary", hexFromArgb (tone secondary 40));
    ("--md-sys-color-secondary-container", hexFromArgb (tone secondary 90));
    ("--md-sys-color-secondary-fixed", hexFromArgb (tone secondary 90));
    ("--md-sys-color-secondary-fixed-dim", hexFromArgb (tone secondary 80));
    ("--md-sys-color-shadow", hexFromArgb (tone neutral 0));
    ("--md-sys-color-surface", hexFromArgb (tone neutral 98));
    ("--md-sys-color-surface-bright", hexFromArgb (tone neutral 98));
    ("--md-sys-color-surface-container", hexFromArgb (tone neutral 94));
    ("--md-sys-color-surface-container-high", hexFromArgb (tone neutral 92));
    ("--md-sys-color-surface-container-highest", hexFromArgb (tone neutral 90));
    ("--md-sys-color-surface-container-low", hexFromArgb (tone neutral 96));
    ("--md-sys-color-surface-container-lowest", hexFromArgb (tone neutral 100));
    ("--md-sys-color-surface-dim", hexFromArgb (tone neutral 87));
    ("--md-sys-color-surface-tint", hexFromArgb (tone primary 40));
    ("--md-sys-color-surface-variant", hexFromArgb (tone neutralVariant 90));
    ("--md-sys-color-tertiary", hexFromArgb (tone tertiary 40));
    ("--md-sys-color-tertiary-container", hexFromArgb (tone tertiary 90));
    ("--md-sys-color-tertiary-fixed", hexFromArgb (tone tertiary 90));
    ("--md-sys-color-tertiary-fixed-dim", hexFromArgb (tone tertiary 80))
  ].

Definition darkColors (scheme : DynamicScheme.t) : JsMap.t :=
  let primary := scheme.(DynamicScheme.primaryPalette) in
  let secondary := scheme.(DynamicScheme.secondaryPalette) in
  let tertiary := scheme.(DynamicScheme.tertiaryPalette) in
  let neutral := scheme.(DynamicScheme.neutralPalette) in
  let neutralVariant := scheme.(DynamicScheme.neutralVariantPalette) in
  let error := scheme.(DynamicScheme.errorPalette) in
  JsMap.new [
    ("--md-sys-color-background", hexFromArgb (tone neutral 6));
    ("--md-sys-color-error", hexFromArgb (tone error 80));
    ("--md-sys-color-error-container", hexFromArgb (tone error 30));
    ("--md-sys-color-inverse-on-surface", hexFromArgb (tone neutral 20));
    ("--md-sys-color-inverse-primary", hexFromArgb (tone primary 40));
    ("--md-sys-color-inverse-surface", hexFromArgb (tone neutral 90));
    ("--md-sys-color-on-background", hexFromArgb (tone neutral 90));
    ("--md-sys-color-on-error", hexFromArgb (tone error 20));
    ("--md-sys-color-on-error-container", hexFromArgb (tone error 90));
    ("--md-sys-color-on-primary", hexFromArgb (tone primary 20));
    ("--md-sys-color-on-primary-container", hexFromArgb (tone primary 90));
    ("--md-sys-color-on-primary-fixed", hexFromArgb (tone primary 10));
    ("--md-sys-color-on-primary-fixed-variant", hexFromArgb (tone primary 30));
    ("--md-sys-color-on-secondary", hexFromArgb (tone secondary 20));
    ("--md-sys-color-on-secondary-container", hexFromArgb (tone secondary 90));
    ("--md-sys-color-on-secondary-fixed", hexFromArgb (tone secondary 10));
    ("--md-sys-color-on-secondary-fixed-variant", hexFromArgb (tone secondary 30));
    ("--md-sys-color-on-surface", hexFromArgb (tone neutral 90));
    ("--md-sys-color-on-surface-variant", hexFromArgb (tone neutralVariant 80));
    ("--md-sys-color-on-tertiary", hexFromArgb (tone tertiary 20));
    ("--md-sys-color-on-tertiary-container", hexFromArgb (tone tertiary 90));
    ("--md-sys-color-on-tertiary-fixed", hexFromArgb (tone tertiary 10));
    ("--md-sys-color-on-tertiary-fixed-variant", hexFromArgb (tone tertiary 30));
    ("--md-sys-color-outline", hexFromArgb (tone neutralVariant 60));
    ("--md-sys-color-outline-variant", hexFromArgb (tone neutralVariant 30));
    ("--md-sys-color-primary", hexFromArgb (tone primary 80));
    ("--md-sys-color-primary-container", hexFromArgb (tone primary 30));
    ("--md-sys-color-primary-fixed", hexFromArgb (tone primary 90));
    ("--md-sys-color-primary-fixed-dim", hexFromArgb (tone primary 80));
    ("--md-sys-color-scrim", hexFromArgb (tone neutral 0));
    ("--md-sys-color-secondary", hexFromArgb (tone secondary 80));
    ("--md-sys-color-secondary-container", hexFromArgb (tone secondary 30));
    ("--md-sys-color-secondary-fixed", hexFromArgb (tone secondary 90));
    ("--md-sys-color-secondary-fixed-dim", hexFromArgb (tone secondary 80));
    ("--md-sys-color-shadow", hexFromArgb (tone neutral 0));
    ("--md-sys-color-surface", hexFromArgb (tone neutral 6));
    ("--md-sys-color-surface-bright", hexFromArgb (tone neutral 24));
    ("--md-sys-color-surface-container", hexFromArgb (tone neutral 12));
    ("--md-sys-color-surface-container-high", hexFromArgb (tone neutral 17));
    ("--md-sys-color-surface-container-highest", hexFromArgb (tone neutral 22));
    ("--md-sys-color-surface-container-low", hexFromArgb (tone neutral 10));
    ("--md-sys-color-surface-container-lowest", hexFromArgb (tone neutral 4));
    ("--md-sys-color-surface-dim", hexFromArgb (tone neutral 6));
    ("--md-sys-color-surface-tint", hexFromArgb (tone primary 80));
    ("--md-sys-color-surface-variant", hexFromArgb (tone neutralVariant 30));
    ("--md-sys-color-tertiary", hexFromArgb (tone tertiary 80));
    ("--md-sys-color-tertiary-container", hexFromArgb (tone tertiary 30));
    ("--md-sys-color-tertiary-fixed", hexFromArgb (tone tertiary 90));
    ("--md-sys-color-tertiary-fixed-dim", hexFromArgb (tone tertiary 80))
  ].

Definition getThemeTokens (theme : MaterialTheme.t) (isDark : bool) : JsMap.t :=
  let scheme :=
    if isDark then theme.(MaterialTheme.schemes).(Schemes.dark)
    else theme.(MaterialTheme.schemes).(Schemes.light) in
  if negb isDark then lightColors scheme
  else JsMap.new (JsMap.entries (lightColors scheme) ++ JsMap.entries (darkColors scheme)).

End WithEngine.
End ToneDirect.

(** ** React state, effects and context, as the provider uses them *)

(** What the provider component holds ([useState]) and the diagnostic
    channel its effect writes to ([console.error]). *)
Module Store.
Record t : Type := Mk {
  currentScheme : option DynamicScheme.t;
  materialTheme : option MaterialTheme.t;
  sourceColor : string;
  console : list (string * exn)
}.
End Store.

(** An effect body: it reads and updates the store and may throw. *)
Definition Eff (A : Type) : Type := Store.t -> Store.t * result A.

Definition eret {A : Type} (a : A) : Eff A := fun s => (s, Ok a).

Definition ebind {A B : Type} (m : Eff A) (k : A -> Eff B) : Eff B :=
  fun s =>
    match m s with
    | (s', Ok a) => k a s'
    | (s', Throw e) => (s', Throw e)
    end.

Declare Scope eff_scope.
Delimit Scope eff_scope with eff.
Notation "x <- m ;; k" := (ebind m (fun x => k))
  (at level 61, m at next level, right associativity) : eff_scope.

(** Evaluating an expression inside an effect body. *)
Definition lift {A : Type} (r : result A) : Eff A := fun s => (s, r).

Definition gets {A : Type} (f : Store.t -> A) : Eff A := fun s => (s, Ok (f s)).

(** [try { body } catch (error) { handler(error) }]. *)
Definition try_catch {A : Type} (body : Eff A) (handler : exn -> Eff A) : Eff A :=
  fun s =>
    match body s with
    | (s', Ok a) => (s', Ok a)
    | (s', Throw error) => handler error s'
    end.

Definition setMaterialTheme (theme : option MaterialTheme.t) : Eff unit :=
  fun s =>
    ({| Store.currentScheme := s.(Store.currentScheme);
        Store.materialTheme := theme;
        Store.sourceColor := s.(Store.sourceColor);
        Store.console := s.(Store.console) |}, Ok tt).

Definition setSourceColor (color : string) : Eff unit :=
  fun s =>
    ({| Store.currentScheme := s.(Store.currentScheme);
        Store.materialTheme := s.(Store.materialTheme);
        Store.sourceColor := color;
        Store.console := s.(Store.console) |}, Ok tt).

(** [console.error(message, error)]. *)
Definition console_error (message : string) (error : exn) : Eff unit :=
  fun s =>
    ({| Store.currentScheme := s.(Store.currentScheme);
        Store.materialTheme := s.(Store.materialTheme);
        Store.sourceColor := s.(Store.sourceColor);
        Store.console := s.(Store.console) ++ [(message, error)] |}, Ok tt).

Module MaterialThemeContextType.
Record t : Type := Mk {
  materialTheme : option MaterialTheme.t;
  setSourceColor : string -> Eff unit;
  currentScheme : option DynamicScheme.t
}.
End MaterialThemeContextType.

(** [createContext(defaultValue)]. *)
Record Context (T : Type) : Type := createContext { defaultValue : T }.
Arguments createContext {T} defaultValue.
Arguments defaultValue {T} c.

(** [useContext(context)]: the value of the nearest provider above the
    calling component, or the default value when there is none. *)
Definition useContext {T : Type} (context : Context T) (nearestProvider : option T) : T :=
  match nearestProvider with
  | Some value => value
  | None => defaultValue context
  end.

(** The custom-color definitions of [MaterialThemeProviderProps]: the value
    is a hex string. *)
Module CustomColorDef.
Record t : Type := Mk { name : string; value : string; blend : bool }.
End CustomColorDef.

Definition storeOnMount (defaultSourceColor : string) : Store.t :=
  {| Store.currentScheme := None;
     Store.materialTheme := None;
     Store.sourceColor := defaultSourceColor;
     Store.console := [] |}.

(** ** [src/material-theme-provider.tsx] *)

Module Provider.

(** The props after their defaults ([children] left out). *)
Module Props.
Record t : Type := Mk {
  isDark : bool;
  variant : Variant.t;
  defaultSourceColor : string;
  customColors : list CustomColorDef.t
}.
Definition defaults : t :=
  {| isDark := false;
     variant := Variant.FIDELITY;
     defaultSourceColor := "#6D509F";
     customColors := [] |}.
End Props.

Section WithEngine.
Context {E : PaletteEngine}.
Local Open Scope eff_scope.

Definition MaterialThemeContext : Context (option MaterialThemeContextType.t) :=
  createContext None.

(** Theme generation effect. *)
Definition themeEffect (props : Props.t) : Eff unit :=
  sourceColor <- gets Store.sourceColor ;;
  try_catch
    (argbColor <- lift (argbFromHex sourceColor) ;;
     theme <- lift (createMaterialTheme argbColor props.(Props.variant) 0%Q
                      default_customColors) ;;
     setMaterialTheme (Some theme))
    (fun error => console_error "Error generating material theme:" error).

(** The dependency list of the effect: [[sourceColor, variant]]. *)
Definition themeEffect_deps (props : Props.t) (s : Store.t) : string * Variant.t :=
  (s.(Store.sourceColor), props.(Props.variant)).

Definition deps_eqb (d1 d2 : string * Variant.t) : bool :=
  String.eqb (fst d1) (fst d2) && Z.eqb (snd d1) (snd d2).

(** The value the provider renders for its consumers. *)
Definition providerValue (s : Store.t) : MaterialThemeContextType.t :=
  {| MaterialThemeContextType.materialTheme := s.(Store.materialTheme);
     MaterialThemeContextType.setSourceColor := setSourceColor;
     MaterialThemeContextType.currentScheme := s.(Store.currentScheme) |}.

(** After the first render the effect runs once. *)
Definition mount (props : Props.t) : Store.t * result unit :=
  themeEffect props (storeOnMount props.(Props.defaultSourceColor)).

(** A render with new props and state: the effect runs again when its
    dependency list differs from that of the previous render. *)
Definition rerender (prevProps : Props.t) (prev : Store.t) (props : Props.t) : Eff unit :=
  fun s =>
    if deps_eqb (themeEffect_deps prevProps prev) (themeEffect_deps props s)
    then eret tt s
    else themeEffect props s.

(** The transition [setSourceColor(newColor)] of a mounted provider: the
    state is set, the component renders again, the effect runs if due. *)
Definition onSetSourceColor (props : Props.t) (newColor : string) : Eff unit :=
  fun s =>
    match setSourceColor newColor s with
    | (s', Ok _) => rerender props s props s'
    | (s', Throw e) => (s', Throw e)
    end.

(** [useMaterialTheme()], called under the nearest provider (if any). *)
Definition useMaterialTheme (nearestProvider : option Store.t)
  : result MaterialThemeContextType.t :=
  let context :=
    useContext MaterialThemeContext
      (option_map (fun s => Some (providerValue s)) nearestProvider) in
  match context with
  | None => Throw (Error "useMaterialTheme must be used within a MaterialThemeProvider")
  | Some context => Ok context
  end.

End WithEngine.
End Provider.

(** ** The provider with a default context value (earlier revision)

    The second text of that revision has the same context, hook and theme
    effect; it computes [currentScheme] during render instead of holding it. *)

Module ProviderDefaultCtx.

Module Props.
Record t : Type := Mk {
  defaultSourceColor : string;
  isDark : bool;
  customColors : list CustomColorDef.t
}.
Definition defaults : t :=
  {| defaultSourceColor := "#6D509F";
     isDark := false;
     customColors := [] |}.
End Props.

Section WithEngine.
Context {E : PaletteEngine}.
Local Open Scope eff_scope.

Definition MaterialThemeContext : Context (option MaterialThemeContextType.t) :=
  createContext
    (Some {| MaterialThemeContextType.materialTheme := None;
             MaterialThemeContextType.setSourceColor := fun _ => eret tt;
             MaterialThemeContextType.currentScheme := None |}).

(** [{ ...color, value: argbFromHex(color.value) }]. *)
Definition toArgb (color : CustomColorDef.t) : result CustomColor.t :=
  (value <- argbFromHex color.(CustomColorDef.value) ;;
   ret {| CustomColor.value := value;
          CustomColor.name := color.(CustomColorDef.name);
          CustomColor.blend := color.(CustomColorDef.blend) |})%js.

(** Effect for generating the theme when source color or custom colors
    change. *)
Definition themeEffect (props : Props.t) : Eff unit :=
  sourceColor <- gets Store.sourceColor ;;
  try_catch
    (argbColor <- lift (argbFromHex sourceColor) ;;
     customColorsArgb <- lift (mapM toArgb props.(Props.customColors)) ;;
     theme <- lift (createMaterialTheme argbColor Variant.FIDELITY 0%Q
                      customColorsArgb) ;;
     setMaterialTheme (Some theme))
    (fun error => console_error "Error generating material theme:" error).

(** The dependency list of the effect: [[sourceColor, customColors]]. *)
Definition themeEffect_deps (props : Props.t) (s : Store.t)
  : string * list CustomColorDef.t :=
  (s.(Store.sourceColor), props.(Props.customColors)).

Definition providerValue (s : Store.t) : MaterialThemeContextType.t :=
  {| MaterialThemeContextType.materialTheme := s.(Store.materialTheme);
     MaterialThemeContextType.setSourceColor := setSourceColor;
     MaterialThemeContextType.currentScheme := s.(Store.currentScheme) |}.

Definition mount (props : Props.t) : Store.t * result unit :=
  themeEffect props (storeOnMount props.(Props.defaultSourceColor)).

Definition useMaterialTheme (nearestProvider : option Store.t)
  : result MaterialThemeContextType.t :=
  let context :=
    useContext MaterialThemeContext
      (option_map (fun s => Some (providerValue s)) nearestProvider) in
  match context with
  | None => Throw (Error "useMaterialTheme must be used within a MaterialThemeProvider")
  | Some context => Ok context
  end.

End WithEngine.
End ProviderDefaultCtx.

(** ** The specification's vocabulary *)

(** The canonical token names, as the specification lists them. *)
Definition canonicalTokenNames : list string := [
  "background"; "error"; "error-container"; "inverse-on-surface";
  "inverse-primary"; "inverse-surface"; "on-background"; "on-error";
  "on-error-container"; "on-primary"; "on-primary-container";
  "on-primary-fixed"; "on-primary-fixed-variant"; "on-secondary";
  "on-secondary-container"; "on-secondary-fixed";
  "on-secondary-fixed-variant"; "on-surface"; "on-surface-variant";
  "on-tertiary"; "on-tertiary-container"; "on-tertiary-fixed";
  "on-tertiary-fixed-variant"; "outline"; "outline-variant"; "primary";
  "primary-container"; "primary-fixed"; "primary-fixed-dim"; "scrim";
  "secondary"; "secondary-container"; "secondary-fixed";
  "secondary-fixed-dim"; "shadow"; "surface"; "surface-bright";
  "surface-container"; "surface-container-high"; "surface-container-highest";
  "surface-container-low"; "surface-container-lowest"; "surface-dim";
  "surface-tint"; "surface-variant"; "tertiary"; "tertiary-container";
  "tertiary-fixed"; "tertiary-fixed-dim"
].

(** A token is published as the CSS custom property of its name. *)
Definition cssVar (name : string) : string := "--md-sys-color-" ++ name.

Definition hexValue (c : ascii) : option Z :=
  let n := Z.of_nat (nat_of_ascii c) in
  if ((48 <=? n) && (n <=? 57))%Z then Some (n - 48)
  else if ((97 <=? n) && (n <=? 102))%Z then Some (n - 87)
  else if ((65 <=? n) && (n <=? 70))%Z then Some (n - 55)
  else None.

Definition isHexDigit (c : ascii) : bool :=
  match hexValue c with Some _ => true | None => false end.

(** A color value: ["#"] and exactly six hexadecimal digits (no alpha). *)
Definition isHexColor (s : string) : bool :=
  match s with
  | String "#" digits =>
      Nat.eqb (String.length digits) 6
      && forallb isHexDigit (list_ascii_of_string digits)
  | _ => false
  end.

(** The specification's dispatch: nine strategies, one engine entry point
    each, and TONAL_SPOT for any other variant value. *)
Definition strategy_of_variant {E : PaletteEngine} (variant : Variant.t)
  : Hct -> bool -> Q -> result DynamicScheme.t :=
  if Z.eqb variant Variant.MONOCHROME then SchemeMonochrome
  else if Z.eqb variant Variant.NEUTRAL then SchemeNeutral
  else if Z.eqb variant Variant.TONAL_SPOT then SchemeTonalSpot
  else if Z.eqb variant Variant.VIBRANT then SchemeVibrant
  else if Z.eqb variant Variant.EXPRESSIVE then SchemeExpressive
  else if Z.eqb variant Variant.FIDELITY then SchemeFidelity
  else if Z.eqb variant Variant.CONTENT then SchemeContent
  else if Z.eqb variant Variant.RAINBOW then SchemeRainbow
  else if Z.eqb variant Variant.FRUIT_SALAD then SchemeFruitSalad
  else SchemeTonalSpot.

Module Palette.
Inductive t : Type := primary | secondary | tertiary | neutral | neutralVariant | error.

Definition get (scheme : DynamicScheme.t) (p : t) : TonalPalette.t :=
  match p with
  | primary => scheme.(DynamicScheme.primaryPalette)
  | secondary => scheme.(DynamicScheme.secondaryPalette)
  | tertiary => scheme.(DynamicScheme.tertiaryPalette)
  | neutral => scheme.(DynamicScheme.neutralPalette)
  | neutralVariant => scheme.(DynamicScheme.neutralVariantPalette)
  | error => scheme.(DynamicScheme.errorPalette)
  end.
End Palette.

(** The tone-stop table of the second revision of [getThemeTokens], one
    row per token: the palette, the light-mode stop, the dark-mode stop. *)
Definition toneStops : list (string * Palette.t * Z * Z) := [
  ("--md-sys-color-background", Palette.neutral, 98, 6);
  ("--md-sys-color-error", Palette.error, 40, 80);
  ("--md-sys-color-error-container", Palette.error, 90, 30);
  ("--md-sys-color-inverse-on-surface", Palette.neutral, 95, 20);
  ("--md-sys-color-inverse-primary", Palette.primary, 80, 40);
  ("--md-sys-color-inverse-surface", Palette.neutral, 20, 90);
  ("--md-sys-color-on-background", Palette.neutral, 10, 90);
  ("--md-sys-color-on-error", Palette.error, 100, 20);
  ("--md-sys-color-on-error-container", Palette.error, 10, 90);
  ("--md-sys-color-on-primary", Palette.primary, 100, 20);
  ("--md-sys-color-on-primary-container", Palette.primary, 10, 90);
  ("--md-sys-color-on-primary-fixed", Palette.primary, 10, 10);
  ("--md-sys-color-on-primary-fixed-variant", Palette.primary, 30, 30);
  ("--md-sys-color-on-secondary", Palette.secondary, 100, 20);
  ("--md-sys-color-on-secondary-container", Palette.secondary, 10, 90);
  ("--md-sys-color-on-secondary-fixed", Palette.secondary, 10, 10);
  ("--md-sys-color-on-secondary-fixed-variant", Palette.secondary, 30, 30);
  ("--md-sys-color-on-surface", Palette.neutral, 10, 90);
  ("--md-sys-color-on-surface-variant", Palette.neutralVariant, 30, 80);
  ("--md-sys-color-on-tertiary", Palette.tertiary, 100, 20);
  ("--md-sys-color-on-tertiary-container", Palette.tertiary, 10, 90);
  ("--md-sys-color-on-tertiary-fixed", Palette.tertiary, 10, 10);
  ("--md-sys-color-on-tertiary-fixed-variant", Palette.tertiary, 30, 30);
  ("--md-sys-color-outline", Palette.neutralVariant, 50, 60);
  ("--md-sys-color-outline-variant", Palette.neutralVariant, 80, 30);
  ("--md-sys-color-primary", Palette.primary, 40, 80);
  ("--md-sys-color-primary-container", Palette.primary, 90, 30);
  ("--md-sys-color-primary-fixed", Palette.primary, 90, 90);
  ("--md-sys-color-primary-fixed-dim", Palette.primary, 80, 80);
  ("--md-sys-color-scrim", Palette.neutral, 0, 0);
  ("--md-sys-color-secondary", Palette.secondary, 40, 80);
  ("--md-sys-color-secondary-container", Palette.secondary, 90, 30);
  ("--md-sys-color-secondary-fixed", Palette.secondary, 90, 90);
  ("--md-sys-color-secondary-fixed-dim", Palette.secondary, 80, 80);
  ("--md-sys-color-shadow", Palette.neutral, 0, 0);
  ("--md-sys-color-surface", Palette.neutral, 98, 6);
  ("--md-sys-color-surface-bright", Palette.neutral, 98, 24);
  ("--md-sys-color-surface-container", Palette.neutral, 94, 12);
  ("--md-sys-color-surface-container-high", Palette.neutral, 92, 17);
  ("--md-sys-color-surface-container-highest", Palette.neutral, 90, 22);
  ("--md-sys-color-surface-container-low", Palette.neutral, 96, 10);
  ("--md-sys-color-surface-container-lowest", Palette.neutral, 100, 4);
  ("--md-sys-color-surface-dim", Palette.neutral, 87, 6);
  ("--md-sys-color-surface-tint", Palette.primary, 40, 80);
  ("--md-sys-color-surface-variant", Palette.neutralVariant, 90, 30);
  ("--md-sys-color-tertiary", Palette.tertiary, 40, 80);
  ("--md-sys-color-tertiary-container", Palette.tertiary, 90, 30);
  ("--md-sys-color-tertiary-fixed", Palette.tertiary, 90, 90);
  ("--md-sys-color-tertiary-fixed-dim", Palette.tertiary, 80, 80)
].

(** A token map read off the table for one scheme and mode. *)
Definition tokensOfStops {E : PaletteEngine}
    (scheme : DynamicScheme.t) (isDark : bool) : JsMap.t :=
  map (fun row =>
         match row with
         | (token, palette, lightStop, darkStop) =>
             (token,
              hexFromArgb
                (TonalPalette.tone (Palette.get scheme palette)
                   (if isDark then darkStop else lightStop)))
         end)
      toneStops.

(** Build, then project: the composed pipeline. *)
Definition buildAndProject {E : PaletteEngine}
    (project : MaterialTheme.t -> bool -> JsMap.t)
    (seed : Z) (variant : Variant.t) (contrast : Q)
    (customColors : list CustomColor.t) (isDark : bool) : result JsMap.t :=
  theme <- createMaterialTheme seed variant contrast customColors ;;
  ret (project theme isDark).

(** ** A small executable engine

    Colors are plain arithmetic on the seed, not perceptual color math; the
    hex conversions follow the usual ["#rrggbb"] form.  It serves to run the
    definitions above on concrete inputs. *)
Module SampleEngine.

Definition argb (rgb : Z) : Z := 0xFF000000 + rgb mod 0x1000000.

Definition palette (hue : Z) : TonalPalette.t :=
  {| TonalPalette.tone := fun n => argb (hue + n * 0x020202) |}.

Definition scheme (strategy : Z) (h : Z) (isDark : bool) (contrastLevel : Q)
  : DynamicScheme.t :=
  let base := h + strategy * 0x1000 + (if isDark then 0x800000 else 0) in
  let role (i : Z) := argb (base + i) in
  {| DynamicScheme.primaryPalette := palette base;
     DynamicScheme.secondaryPalette := palette (base + 0x10);
     DynamicScheme.tertiaryPalette := palette (base + 0x20);
     DynamicScheme.neutralPalette := palette (base + 0x30);
     DynamicScheme.neutralVariantPalette := palette (base + 0x40);
     DynamicScheme.errorPalette := palette 0xB3261E;
     DynamicScheme.background := role 1;
     DynamicScheme.error := role 2;
     DynamicScheme.errorContainer := role 3;
     DynamicScheme.inverseOnSurface := role 4;
     DynamicScheme.inversePrimary := role 5;
     DynamicScheme.inverseSurface := role 6;
     DynamicScheme.onBackground := role 7;
     DynamicScheme.onError := role 8;
     DynamicScheme.onErrorContainer := role 9;
     DynamicScheme.onPrimary := role 10;
     DynamicScheme.onPrimaryContainer := role 11;
     DynamicScheme.onPrimaryFixed := role 12;
     DynamicScheme.onPrimaryFixedVariant := role 13;
     DynamicScheme.onSecondary := role 14;
     DynamicScheme.onSecondaryContainer := role 15;
     DynamicScheme.onSecondaryFixed := role 16;
     DynamicScheme.onSecondaryFixedVariant := role 17;
     DynamicScheme.onSurface := role 18;
     DynamicScheme.onSurfaceVariant := role 19;
     DynamicScheme.onTertiary := role 20;
     DynamicScheme.onTertiaryContainer := role 21;
     DynamicScheme.onTertiaryFixed := role 22;
     DynamicScheme.onTertiaryFixedVariant := role 23;
     DynamicScheme.outline := role 24;
     DynamicScheme.outlineVariant := role 25;
     DynamicScheme.primary := role 26;
     DynamicScheme.primaryContainer := role 27;
     DynamicScheme.primaryFixed := role 28;
     DynamicScheme.primaryFixedDim := role 29;
     DynamicScheme.scrim := role 30;
     DynamicScheme.secondary := role 31;
     DynamicScheme.secondaryContainer := role 32;
     DynamicScheme.secondaryFixed := role 33;
     DynamicScheme.secondaryFixedDim := role 34;
     DynamicScheme.shadow := role 35;
     DynamicScheme.surface := role 36;
     DynamicScheme.surfaceBright := role 37;
     DynamicScheme.surfaceContainer := role 38;
     DynamicScheme.surfaceContainerHigh := role 39;
     DynamicScheme.surfaceContainerHighest := role 40;
     DynamicScheme.surfaceContainerLow := role 41;
     DynamicScheme.surfaceContainerLowest := role 42;
     DynamicScheme.surfaceDim := role 43;
     DynamicScheme.surfaceTint := role 44;
     DynamicScheme.surfaceVariant := role 45;
     DynamicScheme.tertiary := role 46;
     DynamicScheme.tertiaryContainer := role 47;
     DynamicScheme.tertiaryFixed := role 48;
     DynamicScheme.tertiaryFixedDim := role 49
  |}.

Definition group (c : Z) : ColorGroup.t :=
  {| ColorGroup.color := argb c;
     ColorGroup.onColor := argb (c + 1);
     ColorGroup.colorContainer := argb (c + 2);
     ColorGroup.onColorContainer := argb (c + 3) |}.

Definition custom (source : Z) (color : CustomColor.t)
  : result CustomColorGroup.t :=
  let value :=
    if color.(CustomColor.blend)
    then argb ((color.(CustomColor.value) + source) / 2)
    else color.(CustomColor.value) in
  Ok {| CustomColorGroup.color := color;
        CustomColorGroup.value := value;
        CustomColorGroup.light := group value;
        CustomColorGroup.dark := group (value + 0x800000) |}.

Fixpoint parseHex (s : string) (acc : Z) : option Z :=
  match s with
  | EmptyString => Some acc
  | String c s' =>
      match hexValue c with
      | Some d => parseHex s' (acc * 16 + d)
      | None => None
      end
  end.

Definition fromHex (hex : string) : result Z :=
  let digits := match hex with String "#" rest => rest | _ => hex end in
  if Nat.eqb (String.length digits) 6 then
    match parseHex digits 0 with
    | Some rgb => Ok (0xFF000000 + rgb)
    | None => Throw (Error ("unexpected hex " ++ digits))
    end
  else Throw (Error ("unexpected hex " ++ digits)).

Definition hexDigit (d : Z) : ascii :=
  ascii_of_nat (Z.to_nat (if (d <? 10)%Z then 48 + d else 87 + d)).

Definition hex2 (n : Z) : string :=
  String (hexDigit (n / 16)) (String (hexDigit (n mod 16)) EmptyString).

Definition toHex (argb : Z) : string :=
  let r := Z.land (Z.shiftr argb 16) 255 in
  let g := Z.land (Z.shiftr argb 8) 255 in
  let b := Z.land argb 255 in
  String "#" (hex2 r ++ hex2 g ++ hex2 b).

Definition engine : PaletteEngine :=
  {| Hct := Z;
     Hct_fromInt := fun argb => Ok argb;
     SchemeContent := fun h isDark c => Ok (scheme 6 h isDark c);
     SchemeExpressive := fun h isDark c => Ok (scheme 4 h isDark c);
     SchemeFidelity := fun h isDark c => Ok (scheme 5 h isDark c);
     SchemeFruitSalad := fun h isDark c => Ok (scheme 8 h isDark c);
     SchemeMonochrome := fun h isDark c => Ok (scheme 0 h isDark c);
     SchemeNeutral := fun h isDark c => Ok (scheme 1 h isDark c);
     SchemeRainbow := fun h isDark c => Ok (scheme 7 h isDark c);
     SchemeTonalSpot := fun h isDark c => Ok (scheme 2 h isDark c);
     SchemeVibrant := fun h isDark c => Ok (scheme 3 h isDark c);
     customColor := custom;
     argbFromHex := fromHex;
     hexFromArgb := toHex |}.

(** The custom color of the specification's scenario. *)
Definition brand : CustomColor.t :=
  {| CustomColor.value := 0xFF0000; CustomColor.name := "brand"; CustomColor.blend := true |}.

Definition brandDef : CustomColorDef.t :=
  {| CustomColorDef.name := "brand";
     CustomColorDef.value := "#ff0000";
     CustomColorDef.blend := true |}.

(** The theme this engine builds for a seed and a variant of the enum, with
    no custom colors, as a plain value. *)
Definition theme (seed : Z) (variant : Variant.t) : MaterialTheme.t :=
  {| MaterialTheme.source := seed;
     MaterialTheme.variant := variant;
     MaterialTheme.schemes :=
       {| Schemes.light := scheme variant seed false 0%Q;
          Schemes.dark := scheme variant seed true 0%Q |};
     MaterialTheme.customColors := [] |}.

End SampleEngine.

(** Whether every engine entry point that [createMaterialTheme] calls for
    these arguments returns. *)
Definition engineReturns {E : PaletteEngine}
    (seed : Z) (variant : Variant.t) (contrast : Q)
    (customColors : list CustomColor.t) : bool :=
  match Hct_fromInt seed with
  | Ok h =>
      is_Ok (SchemeTonalSpot h false contrast)
      && is_Ok (SchemeTonalSpot h true contrast)
      && is_Ok (strategy_of_variant variant h false contrast)
      && is_Ok (strategy_of_variant variant h true contrast)
      && is_Ok (mapM (customColor seed) customColors)
  | Throw _ => false
  end.

(** The build the specification describes for a chosen strategy: both
    schemes from that engine entry point (after the two default TONAL_SPOT
    schemes the code builds first), then one group per custom color. *)
Definition buildWith {E : PaletteEngine}
    (strategy : Hct -> bool -> Q -> result DynamicScheme.t)
    (seed : Z) (variant : Variant.t) (contrast : Q)
    (customColors : list CustomColor.t) : result MaterialTheme.t :=
  h <- Hct_fromInt seed ;;
  _ <- SchemeTonalSpot h false contrast ;;
  _ <- SchemeTonalSpot h true contrast ;;
  lightScheme <- strategy h false contrast ;;
  darkScheme <- strategy h true contrast ;;
  groups <- mapM (customColor seed) customColors ;;
  ret {| MaterialTheme.source := seed;
         MaterialTheme.variant := variant;
         MaterialTheme.schemes :=
           {| Schemes.light := lightScheme; Schemes.dark := darkScheme |};
         MaterialTheme.customColors := groups |}.

Definition fmap {A B : Type} (f : A -> B) (r : result A) : result B :=
  match r with
  | Ok a => Ok (f a)
  | Throw e => Throw e
  end.

(** Whether the strings of a list are pairwise different. *)
Fixpoint distinct (l : list string) : bool :=
  match l with
  | [] => true
  | x :: l' => negb (existsb (String.eqb x) l') && distinct l'
  end.

(** A token map is complete when its keys are the canonical tokens, in the
    canonical order, and every canonical token resolves to a color value. *)
Definition completeTokenMap (tokens : JsMap.t) : Prop :=
  JsMap.keys tokens = map cssVar canonicalTokenNames
  /\ JsMap.size tokens = 49
  /\ (forall name, In name canonicalTokenNames ->
        exists v, JsMap.get (cssVar name) tokens = Some v /\ isHexColor v = true).

(** ** Further vocabulary *)

(** The role table of the first revision of [getThemeTokens], one row per
    token: the color role it reads. *)
Definition roleTable : list (string * (DynamicScheme.t -> Z)) := [
  ("--md-sys-color-background", DynamicScheme.background);
  ("--md-sys-color-error", DynamicScheme.error);
  ("--md-sys-color-error-container", DynamicScheme.errorContainer);
  ("--md-sys-color-inverse-on-surface", DynamicScheme.inverseOnSurface);
  ("--md-sys-color-inverse-primary", DynamicScheme.inversePrimary);
  ("--md-sys-color-inverse-surface", DynamicScheme.inverseSurface);
  ("--md-sys-color-on-background", DynamicScheme.onBackground);
  ("--md-sys-color-on-error", DynamicScheme.onError);
  ("--md-sys-color-on-error-container", DynamicScheme.onErrorContainer);
  ("--md-sys-color-on-primary", DynamicScheme.onPrimary);
  ("--md-sys-color-on-primary-container", DynamicScheme.onPrimaryContainer);
  ("--md-sys-color-on-primary-fixed", DynamicScheme.onPrimaryFixed);
  ("--md-sys-color-on-primary-fixed-variant", DynamicScheme.onPrimaryFixedVariant);
  ("--md-sys-color-on-secondary", DynamicScheme.onSecondary);
  ("--md-sys-color-on-secondary-container", DynamicScheme.onSecondaryContainer);
  ("--md-sys-color-on-secondary-fixed", DynamicScheme.onSecondaryFixed);
  ("--md-sys-color-on-secondary-fixed-variant", DynamicScheme.onSecondaryFixedVariant);
  ("--md-sys-color-on-surface", DynamicScheme.onSurface);
  ("--md-sys-color-on-surface-variant", DynamicScheme.onSurfaceVariant);
  ("--md-sys-color-on-tertiary", DynamicScheme.onTertiary);
  ("--md-sys-color-on-tertiary-container", DynamicScheme.onTertiaryContainer);
  ("--md-sys-color-on-tertiary-fixed", DynamicScheme.onTertiaryFixed);
  ("--md-sys-color-on-tertiary-fixed-variant", DynamicScheme.onTertiaryFixedVariant);
  ("--md-sys-color-outline", DynamicScheme.outline);
  ("--md-sys-color-outline-variant", DynamicScheme.outlineVariant);
  ("--md-sys-color-primary", DynamicScheme.primary);
  ("--md-sys-color-primary-container", DynamicScheme.primaryContainer);
  ("--md-sys-color-primary-fixed", DynamicScheme.primaryFixed);
  ("--md-sys-color-primary-fixed-dim", DynamicScheme.primaryFixedDim);
  ("--md-sys-color-scrim", DynamicScheme.scrim);
  ("--md-sys-color-secondary", DynamicScheme.secondary);
  ("--md-sys-color-secondary-container", DynamicScheme.secondaryContainer);
  ("--md-sys-color-secondary-fixed", DynamicScheme.secondaryFixed);
  ("--md-sys-color-secondary-fixed-dim", DynamicScheme.secondaryFixedDim);
  ("--md-sys-color-shadow", DynamicScheme.shadow);
  ("--md-sys-color-surface", DynamicScheme.surface);
  ("--md-sys-color-surface-bright", DynamicScheme.surfaceBright);
  ("--md-sys-color-surface-container", DynamicScheme.surfaceContainer);
  ("--md-sys-color-surface-container-high", DynamicScheme.surfaceContainerHigh);
  ("--md-sys-color-surface-container-highest", DynamicScheme.surfaceContainerHighest);
  ("--md-sys-color-surface-container-low", DynamicScheme.surfaceContainerLow);
  ("--md-sys-color-surface-container-lowest", DynamicScheme.surfaceContainerLowest);
  ("--md-sys-color-surface-dim", DynamicScheme.surfaceDim);
  ("--md-sys-color-surface-tint", DynamicScheme.surfaceTint);
  ("--md-sys-color-surface-variant", DynamicScheme.surfaceVariant);
  ("--md-sys-color-tertiary", DynamicScheme.tertiary);
  ("--md-sys-color-tertiary-container", DynamicScheme.tertiaryContainer);
  ("--md-sys-color-tertiary-fixed", DynamicScheme.tertiaryFixed);
  ("--md-sys-color-tertiary-fixed-dim", DynamicScheme.tertiaryFixedDim)
].

(** A token map read off the role table for one scheme. *)
Definition tokensOfRoles {E : PaletteEngine} (scheme : DynamicScheme.t) : JsMap.t :=
  map (fun row => (fst row, hexFromArgb (snd row scheme))) roleTable.

(** The colors the tone-stop table reads for one scheme and mode. *)
Definition colorsAtStops (scheme : DynamicScheme.t) (isDark : bool) : list Z :=
  map (fun row =>
         match row with
         | (_, palette, lightStop, darkStop) =>
             TonalPalette.tone (Palette.get scheme palette)
               (if isDark then darkStop else lightStop)
         end)
      toneStops.

(** The tokens whose tone stop is the same in light and in dark mode. *)
Definition modeInvariantTokens : list string :=
  map (fun row => fst (fst (fst row)))
    (filter (fun row => match row with (_, _, lightStop, darkStop) => Z.eqb lightStop darkStop end)
       toneStops).

(** The value the last entry for a key gives, in a list of entries. *)
Fixpoint lastBinding (k : string) (l : list (string * string)) : option string :=
  match l with
  | [] => None
  | (k', v) :: l' =>
      match lastBinding k l' with
      | Some v' => Some v'
      | None => if String.eqb k' k then Some v else None
      end
  end.

(** ** Publishing the tokens on the root element *)

(** [m.forEach((value, key) => f(value, key))], threading what [f] updates. *)
Definition JsMap_forEach {S : Type}
    (f : string -> string -> S -> S) (m : JsMap.t) (s : S) : S :=
  fold_left (fun s kv => f (snd kv) (fst kv) s) m s.

Definition JsMap_delete (k : string) (m : JsMap.t) : JsMap.t :=
  filter (fun kv => negb (String.eqb (fst kv) k)) m.

(** The provider's store together with the declarations of
    [document.documentElement.style]. *)
Module Page.
Record t : Type := Mk { store : Store.t; rootStyle : JsMap.t }.

(** [document.documentElement.style.setProperty(key, value)] for a custom
    property: an empty value removes the declaration, any other value
    becomes the declaration's value. *)
Definition setProperty (key value : string) (page : t) : t :=
  {| store := page.(store);
     rootStyle :=
       if String.eqb value ""
       then JsMap_delete key page.(rootStyle)
       else JsMap.set key value page.(rootStyle) |}.

Definition setCurrentScheme (scheme : option DynamicScheme.t) (page : t) : t :=
  {| store :=
       {| Store.currentScheme := scheme;
          Store.materialTheme := page.(store).(Store.materialTheme);
          Store.sourceColor := page.(store).(Store.sourceColor);
          Store.console := page.(store).(Store.console) |};
     rootStyle := page.(rootStyle) |}.
End Page.

(** The second effect of [src/material-theme-provider.tsx]; the projector
    is whichever revision of [getThemeTokens] the module imports. *)
Module ProviderPublish.
Section WithProjector.
Variable getThemeTokens : MaterialTheme.t -> bool -> JsMap.t.

(** Effect for setting the current color scheme based on theme and dark
    mode. *)
Definition schemeEffect (props : Provider.Props.t) (page : Page.t) : Page.t :=
  match page.(Page.store).(Store.materialTheme) with
  | None => page
  | Some materialTheme =>
      (* Update scheme *)
      let scheme :=
        if props.(Provider.Props.isDark)
        then materialTheme.(MaterialTheme.schemes).(Schemes.dark)
        else materialTheme.(MaterialTheme.schemes).(Schemes.light) in
      let page := Page.setCurrentScheme (Some scheme) page in
      (* Apply tokens *)
      let tokens := getThemeTokens materialTheme props.(Provider.Props.isDark) in
      JsMap_forEach (fun value key => Page.setProperty key value) tokens page
  end.

End WithProjector.
End ProviderPublish.

(** The two effects of the earlier revision that follow the theme effect. *)
Module ProviderDefaultCtxPublish.
Section WithProjector.
Variable getThemeTokens : MaterialTheme.t -> bool -> JsMap.t.

(** Effect for setting the current color scheme based on theme and dark
    mode. *)
Definition schemeEffect (props : ProviderDefaultCtx.Props.t) (page : Page.t) : Page.t :=
  match page.(Page.store).(Store.materialTheme) with
  | None => page
  | Some materialTheme =>
      let scheme :=
        if props.(ProviderDefaultCtx.Props.isDark)
        then materialTheme.(MaterialTheme.schemes).(Schemes.dark)
        else materialTheme.(MaterialTheme.schemes).(Schemes.light) in
      Page.setCurrentScheme (Some scheme) page
  end.

(** Effect for injecting CSS variables when theme or dark mode changes. *)
Definition tokensEffect (props : ProviderDefaultCtx.Props.t) (page : Page.t) : Page.t :=
  match page.(Page.store).(Store.materialTheme) with
  | None => page
  | Some materialTheme =>
      (* Get and apply theme tokens to document root *)
      let tokens := getThemeTokens materialTheme props.(ProviderDefaultCtx.Props.isDark) in
      JsMap_forEach (fun value key => Page.setProperty key value) tokens page
  end.

End WithProjector.
End ProviderDefaultCtxPublish.

(** The second text of the earlier revision: the scheme is not held, it is
    computed at each render. *)
Module ProviderComputedScheme.

(** [getCurrentScheme()]. *)
Definition getCurrentScheme (props : ProviderDefaultCtx.Props.t) (s : Store.t)
  : option DynamicScheme.t :=
  match s.(Store.materialTheme) with
  | None => None
  | Some materialTheme =>
      Some (if props.(ProviderDefaultCtx.Props.isDark)
            then materialTheme.(MaterialTheme.schemes).(Schemes.dark)
            else materialTheme.(MaterialTheme.schemes).(Schemes.light))
  end.

Definition providerValue (props : ProviderDefaultCtx.Props.t) (s : Store.t)
  : MaterialThemeContextType.t :=
  {| MaterialThemeContextType.materialTheme := s.(Store.materialTheme);
     MaterialThemeContextType.setSourceColor := setSourceColor;
     MaterialThemeContextType.currentScheme := getCurrentScheme props s |}.

End ProviderComputedScheme.

(** ** Further sample values *)

(** An engine that refuses negative seeds and whose TONAL_SPOT constructor
    always throws; the rest is the sample engine. *)
Module FaultyEngine.

Definition fromInt (argb : Z) : result Z :=
  if Z.ltb argb 0 then Throw (Error "not a color") else Ok argb.

Definition engine : PaletteEngine :=
  {| Hct := Z;
     Hct_fromInt := fromInt;
     SchemeContent := fun h isDark c => Ok (SampleEngine.scheme 6 h isDark c);
     SchemeExpressive := fun h isDark c => Ok (SampleEngine.scheme 4 h isDark c);
     SchemeFidelity := fun h isDark c => Ok (SampleEngine.scheme 5 h isDark c);
     SchemeFruitSalad := fun h isDark c => Ok (SampleEngine.scheme 8 h isDark c);
     SchemeMonochrome := fun h isDark c => Ok (SampleEngine.scheme 0 h isDark c);
     SchemeNeutral := fun h isDark c => Ok (SampleEngine.scheme 1 h isDark c);
     SchemeRainbow := fun h isDark c => Ok (SampleEngine.scheme 7 h isDark c);
     SchemeTonalSpot := fun _ _ _ => Throw (Error "tonal spot failed");
     SchemeVibrant := fun h isDark c => Ok (SampleEngine.scheme 3 h isDark c);
     customColor := SampleEngine.custom;
     argbFromHex := SampleEngine.fromHex;
     hexFromArgb := SampleEngine.toHex |}.

End FaultyEngine.

Module SampleSchemes.

(** A scheme whose roles are its palettes at the light-mode stops. *)
Definition atLightStops (hue : Z) : DynamicScheme.t :=
  let primary := SampleEngine.palette hue in
  let secondary := SampleEngine.palette (hue + 0x10) in
  let tertiary := SampleEngine.palette (hue + 0x20) in
  let neutral := SampleEngine.palette (hue + 0x30) in
  let neutralVariant := SampleEngine.palette (hue + 0x40) in
  let error := SampleEngine.palette 0xB3261E in
  {| DynamicScheme.primaryPalette := primary;
     DynamicScheme.secondaryPalette := secondary;
     DynamicScheme.tertiaryPalette := tertiary;
     DynamicScheme.neutralPalette := neutral;
     DynamicScheme.neutralVariantPalette := neutralVariant;
     DynamicScheme.errorPalette := error;
     DynamicScheme.background := TonalPalette.tone neutral 98;
     DynamicScheme.error := TonalPalette.tone error 40;
     DynamicScheme.errorContainer := TonalPalette.tone error 90;
     DynamicScheme.inverseOnSurface := TonalPalette.tone neutral 95;
     DynamicScheme.inversePrimary := TonalPalette.tone primary 80;
     DynamicScheme.inverseSurface := TonalPalette.tone neutral 20;
     DynamicScheme.onBackground := TonalPalette.tone neutral 10;
     DynamicScheme.onError := TonalPalette.tone error 100;
     DynamicScheme.onErrorContainer := TonalPalette.tone error 10;
     DynamicScheme.onPrimary := TonalPalette.tone primary 100;
     DynamicScheme.onPrimaryContainer := TonalPalette.tone primary 10;
     DynamicScheme.onPrimaryFixed := TonalPalette.tone primary 10;
     DynamicScheme.onPrimaryFixedVariant := TonalPalette.tone primary 30;
     DynamicScheme.onSecondary := TonalPalette.tone secondary 100;
     DynamicScheme.onSecondaryContainer := TonalPalette.tone secondary 10;
     DynamicScheme.onSecondaryFixed := TonalPalette.tone secondary 10;
     DynamicScheme.onSecondaryFixedVariant := TonalPalette.tone secondary 30;
     DynamicScheme.onSurface := TonalPalette.tone neutral 10;
     DynamicScheme.onSurfaceVariant := TonalPalette.tone neutralVariant 30;
     DynamicScheme.onTertiary := TonalPalette.tone tertiary 100;
     DynamicScheme.onTertiaryContainer := TonalPalette.tone tertiary 10;
     DynamicScheme.onTertiaryFixed := TonalPalette.tone tertiary 10;
     DynamicScheme.onTertiaryFixedVariant := TonalPalette.tone tertiary 30;
     DynamicScheme.outline := TonalPalette.tone neutralVariant 50;
     DynamicScheme.outlineVariant := TonalPalette.tone neutralVariant 80;
     DynamicScheme.primary := TonalPalette.tone primary 40;
     DynamicScheme.primaryContainer := TonalPalette.tone primary 90;
     DynamicScheme.primaryFixed := TonalPalette.tone primary 90;
     DynamicScheme.primaryFixedDim := TonalPalette.tone primary 80;
     DynamicScheme.scrim := TonalPalette.tone neutral 0;
     DynamicScheme.secondary := TonalPalette.tone secondary 40;
     DynamicScheme.secondaryContainer := TonalPalette.tone secondary 90;
     DynamicScheme.secondaryFixed := TonalPalette.tone secondary 90;
     DynamicScheme.secondaryFixedDim := TonalPalette.tone secondary 80;
     DynamicScheme.shadow := TonalPalette.tone neutral 0;
     DynamicScheme.surface := TonalPalette.tone neutral 98;
     DynamicScheme.surfaceBright := TonalPalette.tone neutral 98;
     DynamicScheme.surfaceContainer := TonalPalette.tone neutral 94;
     DynamicScheme.surfaceContainerHigh := TonalPalette.tone neutral 92;
     DynamicScheme.surfaceContainerHighest := TonalPalette.tone neutral 90;
     DynamicScheme.surfaceContainerLow := TonalPalette.tone neutral 96;
     DynamicScheme.surfaceContainerLowest := TonalPalette.tone neutral 100;
     DynamicScheme.surfaceDim := TonalPalette.tone neutral 87;
     DynamicScheme.surfaceTint := TonalPalette.tone primary 40;
     DynamicScheme.surfaceVariant := TonalPalette.tone neutralVariant 90;
     DynamicScheme.tertiary := TonalPalette.tone tertiary 40;
     DynamicScheme.tertiaryContainer := TonalPalette.tone tertiary 90;
     DynamicScheme.tertiaryFixed := TonalPalette.tone tertiary 90;
     DynamicScheme.tertiaryFixedDim := TonalPalette.tone tertiary 80
  |}.

(** A theme with one scheme for both modes. *)
Definition sameSchemes (scheme : DynamicScheme.t) : MaterialTheme.t :=
  {| MaterialTheme.source := 0x006494;
     MaterialTheme.variant := Variant.TONAL_SPOT;
     MaterialTheme.schemes := {| Schemes.light := scheme; Schemes.dark := scheme |};
     MaterialTheme.customColors := [] |}.

Definition storeWith (theme : option MaterialTheme.t) : Store.t :=
  {| Store.currentScheme := None;
     Store.materialTheme := theme;
     Store.sourceColor := "#006494";
     Store.console := [] |}.

End SampleSchemes.

(** * Properties *)

(** ** The exception monad *)

Lemma bind_Ok_inv {A B : Type} (m : result A) (k : A -> result B) (b : B) :
  bind m k = Ok b -> exists a, m = Ok a /\ k a = Ok b.
Proof.
  destruct m as [a|e]; simpl; intros H.
  - exists a. split; [reflexivity | exact H].
  - discriminate H.
Qed.

Lemma is_Ok_true {A : Type} (r : result A) :
  is_Ok r = true -> exists a, r = Ok a.
Proof.
  destruct r as [a|e]; simpl; intros H; [exists a; reflexivity | discriminate H].
Qed.

Lemma mapM_length {A B : Type} (f : A -> result B) (l : list A) (l' : list B) :
  mapM f l = Ok l' -> List.length l' = List.length l.
Proof.
  revert l'. induction l as [|x l IH]; simpl; intros l' H.
  - injection H as <-. reflexivity.
  - destruct (f x) as [y|e]; simpl in H; [|discriminate H].
    destruct (mapM f l) as [ys|e]; simpl in H; [|discriminate H].
    injection H as <-. simpl. f_equal. apply IH. reflexivity.
Qed.

Lemma mapM_map_echo {A B : Type} (f : A -> result B) (g : B -> A)
    (l : list A) (l' : list B) :
  (forall x y, f x = Ok y -> g y = x) ->
  mapM f l = Ok l' -> map g l' = l.
Proof.
  intros Hecho. revert l'. induction l as [|x l IH]; simpl; intros l' H.
  - injection H as <-. reflexivity.
  - destruct (f x) as [y|e] eqn:Hfx; simpl in H; [|discriminate H].
    destruct (mapM f l) as [ys|e]; simpl in H; [|discriminate H].
    injection H as <-. simpl. f_equal; [apply Hecho; exact Hfx | apply IH; reflexivity].
Qed.

(** ** The theme builder *)

Section ThemeBuilder.
Context {E : PaletteEngine}.

(** Case analysis on every engine call the goal still binds on. *)
Ltac step_calls :=
  repeat match goal with
         | |- context [bind ?m _] =>
             lazymatch m with
             | bind _ _ => fail
             | _ => destruct m; simpl
             end
         end.

(** The switch of [createMaterialTheme] read as a table: the scheme pair
    comes from the strategy of the variant, after the two default
    TONAL_SPOT schemes were built. *)
Lemma createMaterialTheme_dispatch seed variant contrast customColors :
  createMaterialTheme seed variant contrast customColors =
  buildWith (strategy_of_variant variant) seed variant contrast customColors.
Proof.
  unfold createMaterialTheme, buildWith, strategy_of_variant.
  destruct (Hct_fromInt seed) as [h|e]; simpl; [|reflexivity].
  destruct (SchemeTonalSpot h false contrast) as [l0|e] eqn:Hl0; simpl; [|reflexivity].
  destruct (SchemeTonalSpot h true contrast) as [d0|e] eqn:Hd0; simpl; [|reflexivity].
  destruct variant as [|p|p]; simpl.
  - step_calls; reflexivity.
  - repeat
      match goal with
      | |- context [match ?q with xI _ => _ | xO _ => _ | xH => _ end] =>
          is_var q; destruct q; simpl
      end;
      rewrite ?Hl0, ?Hd0; simpl; step_calls; reflexivity.
  - rewrite Hl0, Hd0; simpl. step_calls; reflexivity.
Qed.

Lemma createMaterialTheme_is_Ok seed variant contrast customColors :
  is_Ok (createMaterialTheme seed variant contrast customColors)
  = engineReturns seed variant contrast customColors.
Proof.
  rewrite createMaterialTheme_dispatch. unfold engineReturns, buildWith.
  destruct (Hct_fromInt seed) as [h|e]; simpl; [|reflexivity].
  step_calls; reflexivity.
Qed.

Lemma createMaterialTheme_Ok_inv seed variant contrast customColors theme :
  createMaterialTheme seed variant contrast customColors = Ok theme ->
  exists h lightScheme darkScheme groups,
    Hct_fromInt seed = Ok h
    /\ strategy_of_variant variant h false contrast = Ok lightScheme
    /\ strategy_of_variant variant h true contrast = Ok darkScheme
    /\ mapM (customColor seed) customColors = Ok groups
    /\ theme = {| MaterialTheme.source := seed;
                  MaterialTheme.variant := variant;
                  MaterialTheme.schemes :=
                    {| Schemes.light := lightScheme; Schemes.dark := darkScheme |};
                  MaterialTheme.customColors := groups |}.
Proof.
  rewrite createMaterialTheme_dispatch. unfold buildWith. intros H.
  apply bind_Ok_inv in H as (h & Hh & H).
  apply bind_Ok_inv in H as (l0 & _ & H).
  apply bind_Ok_inv in H as (d0 & _ & H).
  apply bind_Ok_inv in H as (l & Hl & H).
  apply bind_Ok_inv in H as (d & Hd & H).
  apply bind_Ok_inv in H as (groups & Hg & H).
  injection H as <-.
  exists h, l, d, groups. repeat split; assumption.
Qed.

Lemma createMaterialTheme_returns seed variant contrast customColors :
  engineReturns seed variant contrast customColors = true ->
  exists theme, createMaterialTheme seed variant contrast customColors = Ok theme.
Proof.
  rewrite <- createMaterialTheme_is_Ok. apply is_Ok_true.
Qed.

(** An exception of the engine's first call is the exception of the build. *)
Lemma createMaterialTheme_propagates seed variant contrast customColors e :
  Hct_fromInt seed = Throw e ->
  createMaterialTheme seed variant contrast customColors = Throw e.
Proof.
  intros H. rewrite createMaterialTheme_dispatch. unfold buildWith.
  rewrite H. reflexivity.
Qed.

End ThemeBuilder.

(** ** Facts about the sample engine *)

Lemma sample_custom_echo (source : Z) (c : CustomColor.t) (g : CustomColorGroup.t) :
  SampleEngine.custom source c = Ok g -> CustomColorGroup.color g = c.
Proof.
  unfold SampleEngine.custom. intros H. injection H as <-. reflexivity.
Qed.

Lemma sample_hexDigit_ok (d : Z) :
  0 <= d < 16 -> isHexDigit (SampleEngine.hexDigit d) = true.
Proof.
  intros Hd.
  assert (Hcases : d = 0 \/ d = 1 \/ d = 2 \/ d = 3 \/ d = 4 \/ d = 5 \/ d = 6
                   \/ d = 7 \/ d = 8 \/ d = 9 \/ d = 10 \/ d = 11 \/ d = 12
                   \/ d = 13 \/ d = 14 \/ d = 15) by lia.
  repeat (destruct Hcases as [-> | Hcases]; [reflexivity|]).
  subst d. reflexivity.
Qed.

Lemma sample_byte_range (x : Z) : 0 <= Z.land x 255 < 256.
Proof.
  change 255 with (Z.ones 8). rewrite Z.land_ones by lia.
  apply Z.mod_pos_bound. reflexivity.
Qed.

Lemma sample_toHex_wf (argb : Z) : isHexColor (SampleEngine.toHex argb) = true.
Proof.
  unfold SampleEngine.toHex, SampleEngine.hex2, isHexColor. cbn [append].
  cbn [String.length Nat.eqb andb list_ascii_of_string forallb].
  pose proof (sample_byte_range (Z.shiftr argb 16)) as Hr.
  pose proof (sample_byte_range (Z.shiftr argb 8)) as Hg.
  pose proof (sample_byte_range argb) as Hb.
  rewrite !sample_hexDigit_ok; try reflexivity;
    try (apply Z.mod_pos_bound; lia);
    (split; [apply Z.div_pos; lia | apply Z.div_lt_upper_bound; lia]).
Qed.

(** ** Claims about the theme builder *)

Section BuilderClaims.
Context {E : PaletteEngine}.

(** C1 (as amended).  [createMaterialTheme] checks no range on the seed:
    for every seed integer, inside or outside [0, 0xFFFFFF], it returns a
    theme whose source is the seed as soon as the engine entry points it
    calls return. *)
Theorem createMaterialTheme_accepts_every_seed
    (seed : Z) (variant : Variant.t) (contrast : Q)
    (customColors : list CustomColor.t) :
  engineReturns seed variant contrast customColors = true ->
  exists theme,
    createMaterialTheme seed variant contrast customColors = Ok theme
    /\ MaterialTheme.source theme = seed.
Proof.
  intros Hret.
  destruct (createMaterialTheme_returns _ _ _ _ Hret) as [theme Htheme].
  exists theme. split; [exact Htheme|].
  apply createMaterialTheme_Ok_inv in Htheme
    as (h & l & d & groups & _ & _ & _ & _ & ->).
  reflexivity.
Qed.

(** C4.  A variant value outside the enum does not make the build fail: the
    build is the TONAL_SPOT build (same outcome, same light and dark
    schemes); and each of the nine variants builds with its own engine
    scheme constructor. *)
Theorem createMaterialTheme_variant_dispatch
    (seed : Z) (contrast : Q) (customColors : list CustomColor.t) :
  (forall variant, ~ In variant Variant.members ->
     createMaterialTheme seed variant contrast customColors
     = buildWith SchemeTonalSpot seed variant contrast customColors
     /\ fmap MaterialTheme.schemes
          (createMaterialTheme seed variant contrast customColors)
        = fmap MaterialTheme.schemes
            (createMaterialTheme seed Variant.TONAL_SPOT contrast customColors))
  /\ createMaterialTheme seed Variant.MONOCHROME contrast customColors
     = buildWith SchemeMonochrome seed Variant.MONOCHROME contrast customColors
  /\ createMaterialTheme seed Variant.NEUTRAL contrast customColors
     = buildWith SchemeNeutral seed Variant.NEUTRAL contrast customColors
  /\ createMaterialTheme seed Variant.TONAL_SPOT contrast customColors
     = buildWith SchemeTonalSpot seed Variant.TONAL_SPOT contrast customColors
  /\ createMaterialTheme seed Variant.VIBRANT contrast customColors
     = buildWith SchemeVibrant seed Variant.VIBRANT contrast customColors
  /\ createMaterialTheme seed Variant.EXPRESSIVE contrast customColors
     = buildWith SchemeExpressive seed Variant.EXPRESSIVE contrast customColors
  /\ createMaterialTheme seed Variant.FIDELITY contrast customColors
     = buildWith SchemeFidelity seed Variant.FIDELITY contrast customColors
  /\ createMaterialTheme seed Variant.CONTENT contrast customColors
     = buildWith SchemeContent seed Variant.CONTENT contrast customColors
  /\ createMaterialTheme seed Variant.RAINBOW contrast customColors
     = buildWith SchemeRainbow seed Variant.RAINBOW contrast customColors
  /\ createMaterialTheme seed Variant.FRUIT_SALAD contrast customColors
     = buildWith SchemeFruitSalad seed Variant.FRUIT_SALAD contrast customColors.
Proof.
  split; [|repeat split; exact (createMaterialTheme_dispatch seed _ contrast customColors)].
  intros variant Hout.
  assert (Hstrategy : strategy_of_variant variant = SchemeTonalSpot).
  { unfold strategy_of_variant.
    repeat match goal with
           | |- context [Z.eqb variant ?k] =>
               destruct (Z.eqb_spec variant k) as [->|_];
               [exfalso; apply Hout; simpl; tauto|]
           end.
    reflexivity. }
  rewrite !createMaterialTheme_dispatch, Hstrategy.
  split; [reflexivity|].
  change (strategy_of_variant Variant.TONAL_SPOT) with SchemeTonalSpot.
  unfold buildWith.
  destruct (Hct_fromInt seed) as [h|e]; simpl; [|reflexivity].
  repeat match goal with
         | |- context [bind ?m _] =>
             lazymatch m with
             | bind _ _ => fail
             | _ => destruct m; simpl
             end
         end; reflexivity.
Qed.

(** C6.  [createMaterialTheme] echoes its inputs: when the engine returns
    (and its [customColor] keeps the definition it was given in the group's
    [color]), the theme has the seed as [source], the variant as [variant],
    and one group per custom color, in order, each carrying its definition,
    so the same length and the same names. *)
Theorem createMaterialTheme_echoes_inputs
    (seed : Z) (variant : Variant.t) (contrast : Q)
    (customColors : list CustomColor.t) :
  (forall source c g, customColor source c = Ok g -> CustomColorGroup.color g = c) ->
  engineReturns seed variant contrast customColors = true ->
  exists theme,
    createMaterialTheme seed variant contrast customColors = Ok theme
    /\ MaterialTheme.source theme = seed
    /\ MaterialTheme.variant theme = variant
    /\ List.length (MaterialTheme.customColors theme) = List.length customColors
    /\ map CustomColorGroup.color (MaterialTheme.customColors theme) = customColors
    /\ map (fun g => CustomColor.name (CustomColorGroup.color g))
         (MaterialTheme.customColors theme)
       = map CustomColor.name customColors.
Proof.
  intros Hecho Hret.
  destruct (createMaterialTheme_returns _ _ _ _ Hret) as [theme Htheme].
  exists theme. split; [exact Htheme|].
  apply createMaterialTheme_Ok_inv in Htheme
    as (h & l & d & groups & _ & _ & _ & Hgroups & ->).
  simpl.
  assert (Hcolors : map CustomColorGroup.color groups = customColors).
  { eapply mapM_map_echo; [|exact Hgroups]. intros x y. apply Hecho. }
  repeat split.
  - eapply mapM_length. exact Hgroups.
  - exact Hcolors.
  - rewrite <- Hcolors, map_map. reflexivity.
Qed.

End BuilderClaims.

(** C1, the claim as stated fails: the out-of-range seeds -1 and 0x1000000
    are handed to the engine and a theme comes back. *)
Lemma createMaterialTheme_out_of_range_seed_returns :
  createMaterialTheme (E := SampleEngine.engine) (-1) Variant.TONAL_SPOT 0%Q []
  = Ok (SampleEngine.theme (-1) Variant.TONAL_SPOT)
  /\ createMaterialTheme (E := SampleEngine.engine) 0x1000000 Variant.TONAL_SPOT 0%Q []
     = Ok (SampleEngine.theme 0x1000000 Variant.TONAL_SPOT).
Proof. split; reflexivity. Qed.

(** The seed -1 on the sample engine. *)
Lemma createMaterialTheme_accepts_every_seed_witness :
  exists theme,
    createMaterialTheme (E := SampleEngine.engine) (-1) Variant.TONAL_SPOT 0%Q []
    = Ok theme
    /\ MaterialTheme.source theme = -1.
Proof.
  apply (@createMaterialTheme_accepts_every_seed SampleEngine.engine
           (-1) Variant.TONAL_SPOT 0%Q []).
  reflexivity.
Defined.

(** The variant value 9, outside the enum, on the sample engine. *)
Lemma createMaterialTheme_variant_dispatch_witness :
  createMaterialTheme (E := SampleEngine.engine) 0x006494 9 0%Q []
  = buildWith (E := SampleEngine.engine) SchemeTonalSpot 0x006494 9 0%Q []
  /\ fmap MaterialTheme.schemes
       (createMaterialTheme (E := SampleEngine.engine) 0x006494 9 0%Q [])
     = fmap MaterialTheme.schemes
         (createMaterialTheme (E := SampleEngine.engine) 0x006494
            Variant.TONAL_SPOT 0%Q []).
Proof.
  apply (proj1 (@createMaterialTheme_variant_dispatch SampleEngine.engine
                  0x006494 0%Q []) 9).
  simpl. intros H.
  repeat (destruct H as [H|H]; [discriminate H|]). exact H.
Defined.

(** The custom-color scenario of the specification on the sample engine. *)
Lemma createMaterialTheme_echoes_inputs_witness :
  exists theme,
    createMaterialTheme (E := SampleEngine.engine) 0x006494 Variant.TONAL_SPOT 0%Q
      [SampleEngine.brand] = Ok theme
    /\ MaterialTheme.source theme = 0x006494
    /\ MaterialTheme.variant theme = Variant.TONAL_SPOT
    /\ List.length (MaterialTheme.customColors theme) = 1%nat
    /\ map CustomColorGroup.color (MaterialTheme.customColors theme)
       = [SampleEngine.brand]
    /\ map (fun g => CustomColor.name (CustomColorGroup.color g))
         (MaterialTheme.customColors theme)
       = ["brand"].
Proof.
  apply (@createMaterialTheme_echoes_inputs SampleEngine.engine
           0x006494 Variant.TONAL_SPOT 0%Q [SampleEngine.brand]).
  - exact sample_custom_echo.
  - reflexivity.
Defined.

(** The end-to-end scenario of the specification, evaluated: no custom
    colors in, none out. *)
Example createMaterialTheme_scenario :
  fmap (fun theme =>
          (MaterialTheme.source theme, MaterialTheme.variant theme,
           List.length (MaterialTheme.customColors theme)))
       (createMaterialTheme (E := SampleEngine.engine) 0x006494
          default_variant default_contrastLevel default_customColors)
  = Ok (0x006494, Variant.TONAL_SPOT, 0%nat).
Proof. reflexivity. Qed.

(** ** Insertion-ordered maps *)

Lemma distinct_NoDup (l : list string) : distinct l = true -> NoDup l.
Proof.
  induction l as [|x l IH]; simpl; intros H.
  - constructor.
  - apply andb_true_iff in H as [Hx Hl]. constructor; [|apply IH; exact Hl].
    intros Hin. apply negb_true_iff in Hx.
    assert (Hex : existsb (String.eqb x) l = true).
    { apply existsb_exists. exists x. split; [exact Hin | apply String.eqb_refl]. }
    rewrite Hex in Hx. discriminate Hx.
Qed.

Lemma JsMap_set_fresh (k v : string) (m : JsMap.t) :
  ~ In k (map fst m) -> JsMap.set k v m = m ++ [(k, v)].
Proof.
  induction m as [|[k' v'] m IH]; simpl; intros Hk.
  - reflexivity.
  - destruct (String.eqb_spec k' k) as [->|_].
    + exfalso. apply Hk. left. reflexivity.
    + f_equal. apply IH. intros Hin. apply Hk. right. exact Hin.
Qed.

Lemma JsMap_set_present (k v v0 : string) (pre rest : JsMap.t) :
  ~ In k (map fst pre) ->
  JsMap.set k v (pre ++ (k, v0) :: rest) = pre ++ (k, v) :: rest.
Proof.
  induction pre as [|[k' v'] pre IH]; simpl; intros Hk.
  - rewrite String.eqb_refl. reflexivity.
  - destruct (String.eqb_spec k' k) as [->|_].
    + exfalso. apply Hk. left. reflexivity.
    + f_equal. apply IH. intros Hin. apply Hk. right. exact Hin.
Qed.

Lemma JsMap_fold_set_fresh (l acc : list (string * string)) :
  NoDup (map fst (acc ++ l)) ->
  fold_left (fun m kv => JsMap.set (fst kv) (snd kv) m) l acc = acc ++ l.
Proof.
  revert acc. induction l as [|[k v] l IH]; simpl; intros acc Hnd.
  - rewrite app_nil_r. reflexivity.
  - rewrite JsMap_set_fresh.
    + rewrite IH; rewrite <- app_assoc; [reflexivity | exact Hnd].
    + rewrite map_app in Hnd. simpl in Hnd.
      apply NoDup_remove_2 in Hnd. intros Hin. apply Hnd.
      apply in_or_app. left. exact Hin.
Qed.

(** A list of entries with pairwise different keys is its own map. *)
Lemma JsMap_new_distinct (l : list (string * string)) :
  distinct (map fst l) = true -> JsMap.new l = l.
Proof.
  intros H. unfold JsMap.new, JsMap.empty.
  rewrite JsMap_fold_set_fresh; [reflexivity|].
  simpl. apply distinct_NoDup. exact H.
Qed.

Lemma JsMap_fold_set_override (l1 l2 pre : list (string * string)) :
  map fst l1 = map fst l2 ->
  NoDup (map fst (pre ++ l1)) ->
  fold_left (fun m kv => JsMap.set (fst kv) (snd kv) m) l2 (pre ++ l1) = pre ++ l2.
Proof.
  revert l2 pre. induction l1 as [|[k v1] l1 IH]; intros [|[k2 v2] l2] pre Hkeys Hnd;
    simpl in Hkeys; try discriminate Hkeys.
  - reflexivity.
  - injection Hkeys as <- Hkeys. simpl.
    rewrite JsMap_set_present.
    + change (pre ++ (k, v2) :: l1) with (pre ++ [(k, v2)] ++ l1).
      change (pre ++ (k, v2) :: l2) with (pre ++ [(k, v2)] ++ l2).
      rewrite !app_assoc. apply IH; [exact Hkeys|].
      rewrite <- app_assoc. simpl.
      rewrite !map_app in *. simpl in *. exact Hnd.
    + rewrite map_app in Hnd. simpl in Hnd.
      apply NoDup_remove_2 in Hnd. intros Hin. apply Hnd.
      apply in_or_app. left. exact Hin.
Qed.

(** Entries that bind every key of a map again, in the same order, replace
    the map: nothing of the earlier values is left. *)
Lemma JsMap_new_app_same_keys (l1 l2 : list (string * string)) :
  distinct (map fst l1) = true ->
  map fst l1 = map fst l2 ->
  JsMap.new (l1 ++ l2) = l2.
Proof.
  intros Hd Hkeys. unfold JsMap.new. rewrite fold_left_app.
  fold (JsMap.new l1). rewrite (JsMap_new_distinct l1 Hd).
  apply (JsMap_fold_set_override l1 l2 []); [exact Hkeys|].
  simpl. apply distinct_NoDup. exact Hd.
Qed.

Lemma JsMap_get_In (k : string) (m : JsMap.t) :
  In k (JsMap.keys m) -> exists v, JsMap.get k m = Some v /\ In v (JsMap.values m).
Proof.
  unfold JsMap.keys, JsMap.values.
  induction m as [|[k' v'] m IH]; simpl; intros Hin; [contradiction|].
  destruct (String.eqb_spec k' k) as [->|Hne].
  - exists v'. split; [reflexivity | left; reflexivity].
  - destruct Hin as [Heq|Hin]; [contradiction|].
    destruct (IH Hin) as (v & Hget & Hv). exists v. split; [exact Hget | right; exact Hv].
Qed.

(** ** The token projector *)

Section Projector.
Context {E : PaletteEngine}.

(** The first revision's map is the list of its 49 entries. *)
Lemma roleDirect_keys theme isDark :
  JsMap.keys (RoleDirect.getThemeTokens theme isDark) = map cssVar canonicalTokenNames.
Proof.
  unfold RoleDirect.getThemeTokens.
  rewrite JsMap_new_distinct; reflexivity.
Qed.

Lemma roleDirect_values theme isDark :
  exists colors,
    JsMap.values (RoleDirect.getThemeTokens theme isDark) = map hexFromArgb colors.
Proof.
  unfold RoleDirect.getThemeTokens.
  rewrite JsMap_new_distinct by reflexivity.
  set (scheme := if isDark then _ else _).
  eexists
    (map (fun role : DynamicScheme.t -> Z => role scheme)
       [DynamicScheme.background; DynamicScheme.error; DynamicScheme.errorContainer;
        DynamicScheme.inverseOnSurface; DynamicScheme.inversePrimary;
        DynamicScheme.inverseSurface; DynamicScheme.onBackground;
        DynamicScheme.onError; DynamicScheme.onErrorContainer;
        DynamicScheme.onPrimary; DynamicScheme.onPrimaryContainer;
        DynamicScheme.onPrimaryFixed; DynamicScheme.onPrimaryFixedVariant;
        DynamicScheme.onSecondary; DynamicScheme.onSecondaryContainer;
        DynamicScheme.onSecondaryFixed; DynamicScheme.onSecondaryFixedVariant;
        DynamicScheme.onSurface; DynamicScheme.onSurfaceVariant;
        DynamicScheme.onTertiary; DynamicScheme.onTertiaryContainer;
        DynamicScheme.onTertiaryFixed; DynamicScheme.onTertiaryFixedVariant;
        DynamicScheme.outline; DynamicScheme.outlineVariant; DynamicScheme.primary;
        DynamicScheme.primaryContainer; DynamicScheme.primaryFixed;
        DynamicScheme.primaryFixedDim; DynamicScheme.scrim; DynamicScheme.secondary;
        DynamicScheme.secondaryContainer; DynamicScheme.secondaryFixed;
        DynamicScheme.secondaryFixedDim; DynamicScheme.shadow; DynamicScheme.surface;
        DynamicScheme.surfaceBright; DynamicScheme.surfaceContainer;
        DynamicScheme.surfaceContainerHigh; DynamicScheme.surfaceContainerHighest;
        DynamicScheme.surfaceContainerLow; DynamicScheme.surfaceContainerLowest;
        DynamicScheme.surfaceDim; DynamicScheme.surfaceTint;
        DynamicScheme.surfaceVariant; DynamicScheme.tertiary;
        DynamicScheme.tertiaryContainer; DynamicScheme.tertiaryFixed;
        DynamicScheme.tertiaryFixedDim]).
  reflexivity.
Qed.

(** The second revision's two tables are the rows of [toneStops]. *)
Lemma toneDirect_lightColors scheme :
  ToneDirect.lightColors scheme = tokensOfStops scheme false.
Proof.
  unfold ToneDirect.lightColors. rewrite JsMap_new_distinct; reflexivity.
Qed.

Lemma toneDirect_darkColors scheme :
  ToneDirect.darkColors scheme = tokensOfStops scheme true.
Proof.
  unfold ToneDirect.darkColors. rewrite JsMap_new_distinct; reflexivity.
Qed.

Lemma tokensOfStops_keys scheme isDark :
  JsMap.keys (tokensOfStops scheme isDark) = map cssVar canonicalTokenNames.
Proof. reflexivity. Qed.

Lemma tokensOfStops_values scheme isDark :
  exists colors, JsMap.values (tokensOfStops scheme isDark) = map hexFromArgb colors.
Proof.
  unfold tokensOfStops, JsMap.values.
  exists (map (fun row =>
                 match row with
                 | (_, palette, lightStop, darkStop) =>
                     TonalPalette.tone (Palette.get scheme palette)
                       (if isDark then darkStop else lightStop)
                 end) toneStops).
  rewrite !map_map. apply map_ext. intros [[[token palette] l] d]. reflexivity.
Qed.

(** In dark mode the merged map is the dark table. *)
Lemma toneDirect_getThemeTokens theme isDark :
  ToneDirect.getThemeTokens theme isDark = tokensOfStops (scheme_of theme isDark) isDark.
Proof.
  unfold ToneDirect.getThemeTokens, scheme_of, JsMap.entries.
  destruct isDark; cbn [negb].
  - rewrite toneDirect_lightColors, toneDirect_darkColors.
    apply JsMap_new_app_same_keys; reflexivity.
  - apply toneDirect_lightColors.
Qed.

Lemma completeTokenMap_intro (tokens : JsMap.t) :
  (forall argb, isHexColor (hexFromArgb argb) = true) ->
  JsMap.keys tokens = map cssVar canonicalTokenNames ->
  (exists colors, JsMap.values tokens = map hexFromArgb colors) ->
  completeTokenMap tokens.
Proof.
  intros Hwf Hkeys [colors Hvalues]. unfold completeTokenMap.
  split; [exact Hkeys|]. split.
  - unfold JsMap.size. unfold JsMap.keys in Hkeys.
    rewrite <- (length_map fst), Hkeys. reflexivity.
  - intros name Hname.
    destruct (JsMap_get_In (cssVar name) tokens) as (v & Hget & Hv).
    { rewrite Hkeys. apply in_map. exact Hname. }
    exists v. split; [exact Hget|].
    rewrite Hvalues in Hv. apply in_map_iff in Hv as (argb & <- & _). apply Hwf.
Qed.

End Projector.

(** ** Claims about the token projector *)

Section ProjectorClaims.
Context {E : PaletteEngine}.

(** C2 (as amended).  For every theme and both modes, the token map of
    either revision of [getThemeTokens] has exactly the 49 canonical token
    names as keys (each as its CSS custom property), every one bound to the
    engine's hex rendering of a color, a ["#"] and six hex digits when the
    engine's [hexFromArgb] produces that form; the dark-mode map is complete
    in its own right and has the keys of the light-mode map. *)
Theorem getThemeTokens_complete (theme : MaterialTheme.t) (isDark : bool) :
  (forall argb, isHexColor (hexFromArgb argb) = true) ->
  completeTokenMap (RoleDirect.getThemeTokens theme isDark)
  /\ completeTokenMap (ToneDirect.getThemeTokens theme isDark)
  /\ JsMap.keys (RoleDirect.getThemeTokens theme true)
     = JsMap.keys (RoleDirect.getThemeTokens theme false)
  /\ JsMap.keys (ToneDirect.getThemeTokens theme true)
     = JsMap.keys (ToneDirect.getThemeTokens theme false).
Proof.
  intros Hwf. split; [|split; [|split]].
  - apply completeTokenMap_intro;
      [exact Hwf | apply roleDirect_keys | apply roleDirect_values].
  - rewrite toneDirect_getThemeTokens.
    apply completeTokenMap_intro;
      [exact Hwf | apply tokensOfStops_keys | apply tokensOfStops_values].
  - rewrite !roleDirect_keys. reflexivity.
  - rewrite !toneDirect_getThemeTokens, !tokensOfStops_keys. reflexivity.
Qed.

(** C5.  Under the tone-stop projection every token is the hex rendering
    of one palette of the scheme at the stop that the fixed table gives for
    the mode, a stop between 0 and 100; the primary token reads
    [primaryPalette.tone(40)] in light mode and [primaryPalette.tone(80)]
    in dark mode. *)
Theorem toneDirect_reads_tone_stops (theme : MaterialTheme.t) :
  (forall isDark,
     ToneDirect.getThemeTokens theme isDark
     = tokensOfStops (scheme_of theme isDark) isDark)
  /\ forallb (fun row =>
                match row with
                | (_, _, lightStop, darkStop) =>
                    Z.leb 0 lightStop && Z.leb lightStop 100
                    && Z.leb 0 darkStop && Z.leb darkStop 100
                end) toneStops = true
  /\ JsMap.get "--md-sys-color-primary" (ToneDirect.getThemeTokens theme false)
     = Some (hexFromArgb
               (TonalPalette.tone
                  (DynamicScheme.primaryPalette
                     (Schemes.light (MaterialTheme.schemes theme))) 40))
  /\ JsMap.get "--md-sys-color-primary" (ToneDirect.getThemeTokens theme true)
     = Some (hexFromArgb
               (TonalPalette.tone
                  (DynamicScheme.primaryPalette
                     (Schemes.dark (MaterialTheme.schemes theme))) 80)).
Proof.
  split; [intros isDark; apply toneDirect_getThemeTokens|].
  split; [reflexivity|].
  rewrite !toneDirect_getThemeTokens. split; reflexivity.
Qed.

(** C10.  In dark mode the tone-stop projection returns
    [new Map([...lightColors.entries(), ...darkColors.entries()])]; since
    the dark table binds the keys of the light table, that map is the dark
    table itself, entry for entry, and every key reads the dark value. *)
Theorem toneDirect_dark_merge_is_darkColors (theme : MaterialTheme.t) :
  let scheme := Schemes.dark (MaterialTheme.schemes theme) in
  let merged :=
    JsMap.new (JsMap.entries (ToneDirect.lightColors scheme)
               ++ JsMap.entries (ToneDirect.darkColors scheme)) in
  ToneDirect.getThemeTokens theme true = merged
  /\ JsMap.keys (ToneDirect.lightColors scheme)
     = JsMap.keys (ToneDirect.darkColors scheme)
  /\ merged = ToneDirect.darkColors scheme
  /\ (forall key,
        JsMap.get key (ToneDirect.getThemeTokens theme true)
        = JsMap.get key (ToneDirect.darkColors scheme)).
Proof.
  cbv zeta.
  assert (Hmerged :
            JsMap.new (JsMap.entries
                         (ToneDirect.lightColors (Schemes.dark (MaterialTheme.schemes theme)))
                       ++ JsMap.entries
                            (ToneDirect.darkColors (Schemes.dark (MaterialTheme.schemes theme))))
            = ToneDirect.darkColors (Schemes.dark (MaterialTheme.schemes theme))).
  { unfold JsMap.entries.
    rewrite toneDirect_lightColors, toneDirect_darkColors.
    apply JsMap_new_app_same_keys; reflexivity. }
  split; [reflexivity|]. split.
  - rewrite toneDirect_lightColors, toneDirect_darkColors, !tokensOfStops_keys.
    reflexivity.
  - split; [exact Hmerged|].
    intros key. change (ToneDirect.getThemeTokens theme true)
      with (JsMap.new (JsMap.entries
                         (ToneDirect.lightColors (Schemes.dark (MaterialTheme.schemes theme)))
                       ++ JsMap.entries
                            (ToneDirect.darkColors (Schemes.dark (MaterialTheme.schemes theme))))).
    rewrite Hmerged. reflexivity.
Qed.

End ProjectorClaims.

(** C2, the claim as stated fails: the maps have 49 entries, not 48. *)
Lemma getThemeTokens_size_is_not_48 :
  JsMap.size (RoleDirect.getThemeTokens (E := SampleEngine.engine)
                (SampleEngine.theme 0x006494 Variant.TONAL_SPOT) false) <> 48
  /\ JsMap.size (ToneDirect.getThemeTokens (E := SampleEngine.engine)
                   (SampleEngine.theme 0x006494 Variant.TONAL_SPOT) true) <> 48.
Proof. split; vm_compute; intros H; discriminate H. Qed.

(** The dark-mode maps of the scenario theme on the sample engine. *)
Lemma getThemeTokens_complete_witness :
  completeTokenMap
    (RoleDirect.getThemeTokens (E := SampleEngine.engine)
       (SampleEngine.theme 0x006494 Variant.TONAL_SPOT) true)
  /\ completeTokenMap
       (ToneDirect.getThemeTokens (E := SampleEngine.engine)
          (SampleEngine.theme 0x006494 Variant.TONAL_SPOT) true)
  /\ JsMap.keys (RoleDirect.getThemeTokens (E := SampleEngine.engine)
                   (SampleEngine.theme 0x006494 Variant.TONAL_SPOT) true)
     = JsMap.keys (RoleDirect.getThemeTokens (E := SampleEngine.engine)
                     (SampleEngine.theme 0x006494 Variant.TONAL_SPOT) false)
  /\ JsMap.keys (ToneDirect.getThemeTokens (E := SampleEngine.engine)
                   (SampleEngine.theme 0x006494 Variant.TONAL_SPOT) true)
     = JsMap.keys (ToneDirect.getThemeTokens (E := SampleEngine.engine)
                     (SampleEngine.theme 0x006494 Variant.TONAL_SPOT) false).
Proof.
  apply (@getThemeTokens_complete SampleEngine.engine
           (SampleEngine.theme 0x006494 Variant.TONAL_SPOT) true).
  exact sample_toHex_wf.
Defined.

(** ** Claims about the theme store *)

Section StoreClaims.
Context {E : PaletteEngine}.

(** The effect body is wrapped in [try]/[catch] and the handler only logs:
    whatever the build does, the effect itself returns. *)
Lemma themeEffect_never_throws (props : Provider.Props.t) (s : Store.t) :
  snd (Provider.themeEffect props s) = Ok tt.
Proof.
  unfold Provider.themeEffect, ebind, gets, try_catch, lift. simpl.
  destruct (argbFromHex (Store.sourceColor s)) as [argb|e]; simpl; [|reflexivity].
  destruct (createMaterialTheme argb (Provider.Props.variant props) 0%Q
              default_customColors) as [theme|e]; reflexivity.
Qed.

(** A successful build replaces the held theme. *)
Lemma themeEffect_success (props : Provider.Props.t) (s : Store.t) argb theme :
  argbFromHex (Store.sourceColor s) = Ok argb ->
  createMaterialTheme argb (Provider.Props.variant props) 0%Q default_customColors
  = Ok theme ->
  Provider.themeEffect props s = setMaterialTheme (Some theme) s.
Proof.
  intros Hargb Htheme.
  unfold Provider.themeEffect, ebind, gets, try_catch, lift. simpl.
  rewrite Hargb. simpl. rewrite Htheme. reflexivity.
Qed.

Lemma themeEffect_failure (props : Provider.Props.t) (s : Store.t) (e : exn) :
  (argbColor <- argbFromHex (Store.sourceColor s) ;;
   createMaterialTheme argbColor (Provider.Props.variant props) 0%Q
     default_customColors) = Throw e ->
  Provider.themeEffect props s
  = console_error "Error generating material theme:" e s.
Proof.
  intros Hfail.
  unfold Provider.themeEffect, ebind, gets, try_catch, lift. simpl.
  destruct (argbFromHex (Store.sourceColor s)) as [argb|e0]; simpl in *.
  - rewrite Hfail. reflexivity.
  - injection Hfail as ->. reflexivity.
Qed.

(** C7.  When building the theme for a new source color fails, the
    transition returns (no exception leaves the store), the held theme is
    the one held before (or still none), and, the color being a new one,
    the error is appended to the diagnostic channel. *)
Theorem store_keeps_theme_on_failed_build
    (props : Provider.Props.t) (s : Store.t) (newColor : string) (e : exn) :
  (argbColor <- argbFromHex newColor ;;
   createMaterialTheme argbColor (Provider.Props.variant props) 0%Q
     default_customColors) = Throw e ->
  exists s',
    Provider.onSetSourceColor props newColor s = (s', Ok tt)
    /\ Store.materialTheme s' = Store.materialTheme s
    /\ Store.currentScheme s' = Store.currentScheme s
    /\ Store.sourceColor s' = newColor
    /\ (newColor <> Store.sourceColor s ->
        Store.console s'
        = Store.console s ++ [("Error generating material theme:", e)]).
Proof.
  intros Hfail.
  unfold Provider.onSetSourceColor, Provider.rerender, Provider.deps_eqb,
    Provider.themeEffect_deps.
  cbn [setSourceColor fst snd Store.sourceColor].
  rewrite Z.eqb_refl, andb_true_r.
  destruct (String.eqb_spec (Store.sourceColor s) newColor) as [Heq|Hne].
  - eexists. split; [reflexivity|]. simpl.
    repeat split. intros Hnew. exfalso. apply Hnew. symmetry. exact Heq.
  - pose proof (themeEffect_failure props (fst (setSourceColor newColor s)) e Hfail)
      as Heffect.
    cbn [setSourceColor fst] in Heffect. rewrite Heffect.
    eexists. split; [reflexivity|]. simpl. repeat split.
Qed.

(** C8, on the current provider: the custom-color list of the props plays
    no part in the theme effect or in its dependency list, so a rebuilt
    theme never carries a custom color group. *)
Theorem provider_ignores_customColors :
  (forall props customColors' s,
     let props' :=
       {| Provider.Props.isDark := Provider.Props.isDark props;
          Provider.Props.variant := Provider.Props.variant props;
          Provider.Props.defaultSourceColor := Provider.Props.defaultSourceColor props;
          Provider.Props.customColors := customColors' |} in
     Provider.themeEffect props' s = Provider.themeEffect props s
     /\ Provider.themeEffect_deps props' s = Provider.themeEffect_deps props s)
  /\ option_map MaterialTheme.customColors
       (Store.materialTheme
          (fst (Provider.mount (E := SampleEngine.engine)
                  {| Provider.Props.isDark := false;
                     Provider.Props.variant := Variant.FIDELITY;
                     Provider.Props.defaultSourceColor := "#006494";
                     Provider.Props.customColors := [SampleEngine.brandDef] |})))
     = Some []
  /\ option_map
       (fun theme =>
          map (fun g => CustomColor.name (CustomColorGroup.color g))
            (MaterialTheme.customColors theme))
       (Store.materialTheme
          (fst (ProviderDefaultCtx.mount (E := SampleEngine.engine)
                  {| ProviderDefaultCtx.Props.defaultSourceColor := "#006494";
                     ProviderDefaultCtx.Props.isDark := false;
                     ProviderDefaultCtx.Props.customColors := [SampleEngine.brandDef] |})))
     = Some ["brand"].
Proof.
  split; [|split; reflexivity].
  intros props customColors' s. cbv zeta. split; reflexivity.
Qed.

(** C9.  With the default context value of the earlier revision the hook
    returns under every tree: outside any provider it gives the default
    value, whose [setSourceColor] does nothing, and the guard is never
    taken; with the [undefined] default of the current provider the same
    call throws. *)
Theorem useMaterialTheme_outside_provider :
  (forall nearestProvider,
     exists context, ProviderDefaultCtx.useMaterialTheme nearestProvider = Ok context)
  /\ ProviderDefaultCtx.useMaterialTheme None
     = Ok {| MaterialThemeContextType.materialTheme := None;
             MaterialThemeContextType.setSourceColor := fun _ => eret tt;
             MaterialThemeContextType.currentScheme := None |}
  /\ (forall context color s,
        ProviderDefaultCtx.useMaterialTheme None = Ok context ->
        MaterialThemeContextType.setSourceColor context color s = (s, Ok tt))
  /\ Provider.useMaterialTheme None
     = Throw (Error "useMaterialTheme must be used within a MaterialThemeProvider")
  /\ (forall s, Provider.useMaterialTheme (Some s) = Ok (Provider.providerValue s)).
Proof.
  split; [|split; [|split; [|split]]].
  - intros [s|]; eexists; reflexivity.
  - reflexivity.
  - intros context color s H. injection H as <-. reflexivity.
  - reflexivity.
  - intros s. reflexivity.
Qed.

End StoreClaims.

(** A freshly mounted store is given the malformed color ["#12"]. *)
Lemma store_keeps_theme_on_failed_build_witness :
  exists s',
    Provider.onSetSourceColor (E := SampleEngine.engine) Provider.Props.defaults
      "#12" (storeOnMount "#6D509F") = (s', Ok tt)
    /\ Store.materialTheme s' = Store.materialTheme (storeOnMount "#6D509F")
    /\ Store.currentScheme s' = Store.currentScheme (storeOnMount "#6D509F")
    /\ Store.sourceColor s' = "#12"
    /\ ("#12" <> Store.sourceColor (storeOnMount "#6D509F") ->
        Store.console s'
        = Store.console (storeOnMount "#6D509F")
          ++ [("Error generating material theme:", Error "unexpected hex 12")]).
Proof.
  apply (@store_keeps_theme_on_failed_build SampleEngine.engine
           Provider.Props.defaults (storeOnMount "#6D509F") "#12"
           (Error "unexpected hex 12")).
  reflexivity.
Defined.

(** The default [setSourceColor] leaves a store as it is. *)
Lemma useMaterialTheme_outside_provider_witness :
  MaterialThemeContextType.setSourceColor
    {| MaterialThemeContextType.materialTheme := None;
       MaterialThemeContextType.setSourceColor := fun _ => eret tt;
       MaterialThemeContextType.currentScheme := None |}
    "#ff0000" (storeOnMount "#006494")
  = (storeOnMount "#006494", Ok tt).
Proof.
  apply (proj1 (proj2 (proj2 useMaterialTheme_outside_provider))).
  reflexivity.
Defined.

(** * Further properties *)

(** ** More on the exception monad *)

Lemma bind_Throw_inv {A B : Type} (m : result A) (k : A -> result B) (e : exn) :
  bind m k = Throw e -> m = Throw e \/ exists a, m = Ok a /\ k a = Throw e.
Proof.
  destruct m as [a|e0]; simpl; intros H.
  - right. exists a. split; [reflexivity | exact H].
  - left. injection H as ->. reflexivity.
Qed.

Lemma mapM_Throw_In {A B : Type} (f : A -> result B) (l : list A) (e : exn) :
  mapM f l = Throw e -> exists x, In x l /\ f x = Throw e.
Proof.
  induction l as [|x l IH]; simpl; intros H; [discriminate H|].
  apply bind_Throw_inv in H as [H | (y & Hy & H)].
  - exists x. split; [left; reflexivity | exact H].
  - apply bind_Throw_inv in H as [H | (ys & _ & H)]; [|discriminate H].
    destruct (IH H) as (x' & Hin & Hx'). exists x'. split; [right; exact Hin | exact Hx'].
Qed.

Lemma mapM_Forall2 {A B : Type} (f : A -> result B) (l : list A) (l' : list B) :
  mapM f l = Ok l' -> Forall2 (fun x y => f x = Ok y) l l'.
Proof.
  revert l'. induction l as [|x l IH]; simpl; intros l' H.
  - injection H as <-. constructor.
  - apply bind_Ok_inv in H as (y & Hy & H).
    apply bind_Ok_inv in H as (ys & Hys & H).
    injection H as <-. constructor; [exact Hy | apply IH; exact Hys].
Qed.

(** ** More on the theme builder *)

Section BuilderExtras.
Context {E : PaletteEngine}.

(** X1.  [createMaterialTheme] throws nothing of its own: an exception of
    the build is the exception of one of the engine calls it makes. *)
Theorem createMaterialTheme_throws_only_engine_exceptions
    (seed : Z) (variant : Variant.t) (contrast : Q)
    (customColors : list CustomColor.t) (e : exn) :
  createMaterialTheme seed variant contrast customColors = Throw e ->
  Hct_fromInt seed = Throw e
  \/ exists h,
       Hct_fromInt seed = Ok h
       /\ (SchemeTonalSpot h false contrast = Throw e
           \/ SchemeTonalSpot h true contrast = Throw e
           \/ strategy_of_variant variant h false contrast = Throw e
           \/ strategy_of_variant variant h true contrast = Throw e
           \/ exists color, In color customColors /\ customColor seed color = Throw e).
Proof.
  rewrite createMaterialTheme_dispatch. unfold buildWith. intros H.
  apply bind_Throw_inv in H as [H | (h & Hh & H)]; [left; exact H|].
  right. exists h. split; [exact Hh|].
  apply bind_Throw_inv in H as [H | (l0 & _ & H)]; [left; exact H|].
  apply bind_Throw_inv in H as [H | (d0 & _ & H)]; [right; left; exact H|].
  apply bind_Throw_inv in H as [H | (l & _ & H)]; [right; right; left; exact H|].
  apply bind_Throw_inv in H as [H | (d & _ & H)];
    [right; right; right; left; exact H|].
  apply bind_Throw_inv in H as [H | (groups & _ & H)]; [|discriminate H].
  right; right; right; right. apply mapM_Throw_In. exact H.
Qed.

(** X2.  Whatever the variant, the two default TONAL_SPOT schemes are built
    first: when the engine's TONAL_SPOT constructor throws, the build of
    every variant throws that exception. *)
Theorem createMaterialTheme_needs_tonal_spot
    (seed : Z) (variant : Variant.t) (contrast : Q)
    (customColors : list CustomColor.t) (h : Hct) (e : exn) :
  Hct_fromInt seed = Ok h ->
  SchemeTonalSpot h false contrast = Throw e
  \/ (is_Ok (SchemeTonalSpot h false contrast) = true
      /\ SchemeTonalSpot h true contrast = Throw e) ->
  createMaterialTheme seed variant contrast customColors = Throw e.
Proof.
  intros Hh Hspot. rewrite createMaterialTheme_dispatch. unfold buildWith.
  rewrite Hh. simpl. destruct Hspot as [Hl | [Hl Hd]].
  - rewrite Hl. reflexivity.
  - apply is_Ok_true in Hl as [l0 Hl]. rewrite Hl. simpl. rewrite Hd. reflexivity.
Qed.

(** X3.  The groups of a built theme are, index by index, the engine's
    [customColor] of the theme's own source and the definition at that
    index. *)
Theorem createMaterialTheme_groups_pointwise
    (seed : Z) (variant : Variant.t) (contrast : Q)
    (customColors : list CustomColor.t) (theme : MaterialTheme.t) :
  createMaterialTheme seed variant contrast customColors = Ok theme ->
  Forall2 (fun color group =>
             customColor (MaterialTheme.source theme) color = Ok group)
    customColors (MaterialTheme.customColors theme).
Proof.
  intros H.
  apply createMaterialTheme_Ok_inv in H as (h & l & d & groups & _ & _ & _ & Hg & ->).
  simpl. apply mapM_Forall2. exact Hg.
Qed.

(** X4.  Schemes and custom color groups are built apart: the schemes of a
    theme do not depend on the custom-color list, and its groups do not
    depend on the variant or the contrast level. *)
Theorem createMaterialTheme_schemes_and_groups_apart
    (seed : Z) (variant variant' : Variant.t) (contrast contrast' : Q)
    (customColors customColors' : list CustomColor.t)
    (theme themeOtherColors themeOtherVariant : MaterialTheme.t) :
  createMaterialTheme seed variant contrast customColors = Ok theme ->
  createMaterialTheme seed variant contrast customColors' = Ok themeOtherColors ->
  createMaterialTheme seed variant' contrast' customColors = Ok themeOtherVariant ->
  MaterialTheme.schemes themeOtherColors = MaterialTheme.schemes theme
  /\ MaterialTheme.customColors themeOtherVariant = MaterialTheme.customColors theme.
Proof.
  intros H1 H2 H3.
  apply createMaterialTheme_Ok_inv in H1 as (h1 & l1 & d1 & g1 & Hh1 & Hl1 & Hd1 & Hg1 & ->).
  apply createMaterialTheme_Ok_inv in H2 as (h2 & l2 & d2 & g2 & Hh2 & Hl2 & Hd2 & Hg2 & ->).
  apply createMaterialTheme_Ok_inv in H3 as (h3 & l3 & d3 & g3 & Hh3 & Hl3 & Hd3 & Hg3 & ->).
  simpl. split.
  - rewrite Hh1 in Hh2. injection Hh2 as <-.
    rewrite Hl1 in Hl2. injection Hl2 as <-.
    rewrite Hd1 in Hd2. injection Hd2 as <-. reflexivity.
  - rewrite Hg1 in Hg3. injection Hg3 as <-. reflexivity.
Qed.

(** X5.  The published tokens do not depend on the custom colors: when the
    engine derives a group for each of them, build and projection give the
    map they give without custom colors, for both revisions of
    [getThemeTokens]. *)
Theorem tokens_ignore_customColors
    (seed : Z) (variant : Variant.t) (contrast : Q)
    (customColors : list CustomColor.t) (isDark : bool) :
  is_Ok (mapM (customColor seed) customColors) = true ->
  buildAndProject RoleDirect.getThemeTokens seed variant contrast customColors isDark
  = buildAndProject RoleDirect.getThemeTokens seed variant contrast [] isDark
  /\ buildAndProject ToneDirect.getThemeTokens seed variant contrast customColors isDark
     = buildAndProject ToneDirect.getThemeTokens seed variant contrast [] isDark.
Proof.
  intros Hgroups. apply is_Ok_true in Hgroups as [groups Hgroups].
  unfold buildAndProject. rewrite !createMaterialTheme_dispatch. unfold buildWith.
  rewrite Hgroups. simpl.
  destruct (Hct_fromInt seed) as [h|e]; simpl; [|split; reflexivity].
  destruct (SchemeTonalSpot h false contrast); simpl; [|split; reflexivity].
  destruct (SchemeTonalSpot h true contrast); simpl; [|split; reflexivity].
  destruct (strategy_of_variant variant h false contrast); simpl; [|split; reflexivity].
  destruct (strategy_of_variant variant h true contrast); simpl; split; reflexivity.
Qed.

End BuilderExtras.

(** The negative seed on the engine that refuses it. *)
Lemma createMaterialTheme_throws_only_engine_exceptions_witness :
  @Hct_fromInt FaultyEngine.engine (-1) = Throw (Error "not a color")
  \/ exists h,
       @Hct_fromInt FaultyEngine.engine (-1) = Ok h
       /\ (@SchemeTonalSpot FaultyEngine.engine h false 0%Q
           = Throw (Error "not a color")
           \/ @SchemeTonalSpot FaultyEngine.engine h true 0%Q
              = Throw (Error "not a color")
           \/ @strategy_of_variant FaultyEngine.engine Variant.VIBRANT h false 0%Q
              = Throw (Error "not a color")
           \/ @strategy_of_variant FaultyEngine.engine Variant.VIBRANT h true 0%Q
              = Throw (Error "not a color")
           \/ exists color,
                In color []
                /\ @customColor FaultyEngine.engine (-1) color
                   = Throw (Error "not a color")).
Proof.
  apply (@createMaterialTheme_throws_only_engine_exceptions FaultyEngine.engine
           (-1) Variant.VIBRANT 0%Q [] (Error "not a color")).
  reflexivity.
Defined.

(** A MONOCHROME build on the engine whose TONAL_SPOT constructor throws. *)
Lemma createMaterialTheme_needs_tonal_spot_witness :
  createMaterialTheme (E := FaultyEngine.engine) 0x006494 Variant.MONOCHROME 0%Q []
  = Throw (Error "tonal spot failed").
Proof.
  apply (@createMaterialTheme_needs_tonal_spot FaultyEngine.engine
           0x006494 Variant.MONOCHROME 0%Q [] 0x006494 (Error "tonal spot failed")).
  - reflexivity.
  - left. reflexivity.
Defined.

Lemma createMaterialTheme_groups_pointwise_witness :
  Forall2 (fun color group =>
             customColor (PaletteEngine := SampleEngine.engine) 0x006494 color = Ok group)
    [SampleEngine.brand]
    [{| CustomColorGroup.color := SampleEngine.brand;
        CustomColorGroup.value := SampleEngine.argb ((0xFF0000 + 0x006494) / 2);
        CustomColorGroup.light :=
          SampleEngine.group (SampleEngine.argb ((0xFF0000 + 0x006494) / 2));
        CustomColorGroup.dark :=
          SampleEngine.group
            (SampleEngine.argb ((0xFF0000 + 0x006494) / 2) + 0x800000) |}].
Proof.
  apply (@createMaterialTheme_groups_pointwise SampleEngine.engine
           0x006494 Variant.TONAL_SPOT 0%Q [SampleEngine.brand]
           {| MaterialTheme.source := 0x006494;
              MaterialTheme.variant := Variant.TONAL_SPOT;
              MaterialTheme.schemes :=
                {| Schemes.light := SampleEngine.scheme 2 0x006494 false 0%Q;
                   Schemes.dark := SampleEngine.scheme 2 0x006494 true 0%Q |};
              MaterialTheme.customColors :=
                [{| CustomColorGroup.color := SampleEngine.brand;
                    CustomColorGroup.value :=
                      SampleEngine.argb ((0xFF0000 + 0x006494) / 2);
                    CustomColorGroup.light :=
                      SampleEngine.group (SampleEngine.argb ((0xFF0000 + 0x006494) / 2));
                    CustomColorGroup.dark :=
                      SampleEngine.group
                        (SampleEngine.argb ((0xFF0000 + 0x006494) / 2) + 0x800000) |}] |}).
  reflexivity.
Defined.

(** Three builds on one seed: VIBRANT with the brand color, VIBRANT without
    custom colors, and NEUTRAL at another contrast with the brand color. *)
Lemma createMaterialTheme_schemes_and_groups_apart_witness :
  exists theme themeOtherColors themeOtherVariant,
    createMaterialTheme (E := SampleEngine.engine) 0x006494 Variant.VIBRANT 0%Q
      [SampleEngine.brand] = Ok theme
    /\ createMaterialTheme (E := SampleEngine.engine) 0x006494 Variant.VIBRANT 0%Q
         [] = Ok themeOtherColors
    /\ createMaterialTheme (E := SampleEngine.engine) 0x006494 Variant.NEUTRAL (1 # 2)%Q
         [SampleEngine.brand] = Ok themeOtherVariant
    /\ MaterialTheme.customColors theme <> MaterialTheme.customColors themeOtherColors
    /\ MaterialTheme.schemes theme <> MaterialTheme.schemes themeOtherVariant
    /\ MaterialTheme.schemes themeOtherColors = MaterialTheme.schemes theme
    /\ MaterialTheme.customColors themeOtherVariant = MaterialTheme.customColors theme.
Proof.
  do 3 eexists.
  split; [reflexivity|]. split; [reflexivity|]. split; [reflexivity|].
  split; [intros H; discriminate H|].
  split.
  - intros H.
    apply (f_equal (fun schemes => DynamicScheme.background (Schemes.light schemes))) in H.
    vm_compute in H. discriminate H.
  - apply (@createMaterialTheme_schemes_and_groups_apart SampleEngine.engine
             0x006494 Variant.VIBRANT Variant.NEUTRAL 0%Q (1 # 2)%Q
             [SampleEngine.brand] []);
      reflexivity.
Defined.

Lemma tokens_ignore_customColors_witness :
  buildAndProject (E := SampleEngine.engine)
    (RoleDirect.getThemeTokens (E := SampleEngine.engine))
    0x006494 Variant.TONAL_SPOT 0%Q [SampleEngine.brand] true
  = buildAndProject (E := SampleEngine.engine)
    (RoleDirect.getThemeTokens (E := SampleEngine.engine))
      0x006494 Variant.TONAL_SPOT 0%Q [] true
  /\ buildAndProject (E := SampleEngine.engine)
    (ToneDirect.getThemeTokens (E := SampleEngine.engine))
       0x006494 Variant.TONAL_SPOT 0%Q [SampleEngine.brand] true
     = buildAndProject (E := SampleEngine.engine)
    (ToneDirect.getThemeTokens (E := SampleEngine.engine))
         0x006494 Variant.TONAL_SPOT 0%Q [] true.
Proof.
  apply (@tokens_ignore_customColors SampleEngine.engine
           0x006494 Variant.TONAL_SPOT 0%Q [SampleEngine.brand] true).
  reflexivity.
Defined.

(** ** More on insertion-ordered maps *)

Lemma JsMap_get_set_same (k v : string) (m : JsMap.t) :
  JsMap.get k (JsMap.set k v m) = Some v.
Proof.
  induction m as [|[k' v'] m IH]; simpl.
  - rewrite String.eqb_refl. reflexivity.
  - destruct (String.eqb_spec k' k) as [->|Hne]; simpl.
    + rewrite String.eqb_refl. reflexivity.
    + destruct (String.eqb_spec k' k) as [Heq|_]; [contradiction | exact IH].
Qed.

Lemma JsMap_get_set_other (k k0 v : string) (m : JsMap.t) :
  k0 <> k -> JsMap.get k (JsMap.set k0 v m) = JsMap.get k m.
Proof.
  intros Hne. induction m as [|[k' v'] m IH]; simpl.
  - destruct (String.eqb_spec k0 k) as [Heq|_]; [contradiction | reflexivity].
  - destruct (String.eqb_spec k' k0) as [->|Hne']; simpl.
    + destruct (String.eqb_spec k0 k) as [Heq|_]; [contradiction | reflexivity].
    + destruct (String.eqb_spec k' k); [reflexivity | exact IH].
Qed.

Lemma JsMap_get_fold_set (k : string) (l : list (string * string)) (acc : JsMap.t) :
  JsMap.get k (fold_left (fun m kv => JsMap.set (fst kv) (snd kv) m) l acc)
  = match lastBinding k l with
    | Some v => Some v
    | None => JsMap.get k acc
    end.
Proof.
  revert acc. induction l as [|[k' v] l IH]; simpl; intros acc; [reflexivity|].
  rewrite IH. destruct (lastBinding k l) as [v'|]; [reflexivity|].
  destruct (String.eqb_spec k' k) as [->|Hne].
  - apply JsMap_get_set_same.
  - apply JsMap_get_set_other. exact Hne.
Qed.

Lemma lastBinding_app (k : string) (l1 l2 : list (string * string)) :
  lastBinding k (l1 ++ l2)
  = match lastBinding k l2 with
    | Some v => Some v
    | None => lastBinding k l1
    end.
Proof.
  induction l1 as [|[k' v] l1 IH]; simpl.
  - destruct (lastBinding k l2); reflexivity.
  - rewrite IH. destruct (lastBinding k l2); reflexivity.
Qed.

(** X10.  A [Map] built from entries gives each key the value of its last
    entry; so in [new Map([...a, ...b])] a key bound in [b] reads [b]'s
    value and a key bound only in [a] keeps [a]'s: the second list overlays
    the first, it does not replace it. *)
Theorem JsMap_new_overlay (a b : list (string * string)) (key : string) :
  JsMap.get key (JsMap.new a) = lastBinding key a
  /\ JsMap.get key (JsMap.new (a ++ b))
     = match JsMap.get key (JsMap.new b) with
       | Some v => Some v
       | None => JsMap.get key (JsMap.new a)
       end.
Proof.
  assert (Hnew : forall l, JsMap.get key (JsMap.new l) = lastBinding key l).
  { intros l. unfold JsMap.new. rewrite JsMap_get_fold_set.
    destruct (lastBinding key l); reflexivity. }
  split; [apply Hnew|].
  rewrite !Hnew. apply lastBinding_app.
Qed.

(** ** More on the token projector *)

Section ProjectorExtras.
Context {E : PaletteEngine}.

Lemma roleDirect_getThemeTokens theme isDark :
  RoleDirect.getThemeTokens theme isDark = tokensOfRoles (scheme_of theme isDark).
Proof.
  unfold RoleDirect.getThemeTokens. rewrite JsMap_new_distinct; reflexivity.
Qed.

Lemma tokensOfRoles_combine scheme :
  tokensOfRoles scheme
  = combine (map cssVar canonicalTokenNames)
      (map hexFromArgb (map (fun row => snd row scheme) roleTable)).
Proof. reflexivity. Qed.

Lemma tokensOfStops_combine scheme isDark :
  tokensOfStops scheme isDark
  = combine (map cssVar canonicalTokenNames)
      (map hexFromArgb (colorsAtStops scheme isDark)).
Proof. destruct isDark; reflexivity. Qed.

(** X6.  Under the role projection every token is the hex rendering of one
    fixed color role of the scheme selected by the mode, the same role in
    both modes, and nothing else of the theme is read; the primary token
    reads [scheme.primary] and the surface tint reads [scheme.surfaceTint]. *)
Theorem roleDirect_reads_roles (theme : MaterialTheme.t) (isDark : bool) :
  RoleDirect.getThemeTokens theme isDark = tokensOfRoles (scheme_of theme isDark)
  /\ JsMap.get "--md-sys-color-primary" (RoleDirect.getThemeTokens theme isDark)
     = Some (hexFromArgb (DynamicScheme.primary (scheme_of theme isDark)))
  /\ JsMap.get "--md-sys-color-surface-tint" (RoleDirect.getThemeTokens theme isDark)
     = Some (hexFromArgb (DynamicScheme.surfaceTint (scheme_of theme isDark))).
Proof.
  rewrite roleDirect_getThemeTokens. repeat split; reflexivity.
Qed.

(** X7.  The two revisions of [getThemeTokens] give the same map for a
    theme and mode whenever every role of the selected scheme is the color
    of its palette at the table's stop for that mode. *)
Theorem revisions_agree_when_roles_sit_at_stops
    (theme : MaterialTheme.t) (isDark : bool) :
  map (fun row => snd row (scheme_of theme isDark)) roleTable
  = colorsAtStops (scheme_of theme isDark) isDark ->
  RoleDirect.getThemeTokens theme isDark = ToneDirect.getThemeTokens theme isDark.
Proof.
  intros Hroles.
  rewrite roleDirect_getThemeTokens, toneDirect_getThemeTokens.
  rewrite tokensOfRoles_combine, tokensOfStops_combine, Hroles. reflexivity.
Qed.

(** X8.  The tone-stop projection reads the six palettes of the selected
    scheme and none of its color roles: two themes whose selected schemes
    have the same palettes get the same map. *)
Theorem toneDirect_reads_only_palettes
    (theme theme' : MaterialTheme.t) (isDark : bool) :
  (forall palette,
     Palette.get (scheme_of theme isDark) palette
     = Palette.get (scheme_of theme' isDark) palette) ->
  ToneDirect.getThemeTokens theme isDark = ToneDirect.getThemeTokens theme' isDark.
Proof.
  intros Hpalettes. rewrite !toneDirect_getThemeTokens.
  unfold tokensOfStops. apply map_ext.
  intros [[[token palette] lightStop] darkStop]. rewrite Hpalettes. reflexivity.
Qed.

(** X9.  Under the tone-stop projection the twelve fixed tokens, the scrim
    and the shadow read the same tone stop in both modes: for a theme whose
    light and dark schemes share their palettes, each of them has the same
    value in dark mode as in light mode. *)
Theorem toneDirect_fixed_tokens_same_in_both_modes
    (theme : MaterialTheme.t) (token : string) :
  (forall palette,
     Palette.get (Schemes.light (MaterialTheme.schemes theme)) palette
     = Palette.get (Schemes.dark (MaterialTheme.schemes theme)) palette) ->
  In token
    (map cssVar
       ["on-primary-fixed"; "on-primary-fixed-variant"; "on-secondary-fixed";
        "on-secondary-fixed-variant"; "on-tertiary-fixed";
        "on-tertiary-fixed-variant"; "primary-fixed"; "primary-fixed-dim";
        "scrim"; "secondary-fixed"; "secondary-fixed-dim"; "shadow";
        "tertiary-fixed"; "tertiary-fixed-dim"]) ->
  In token modeInvariantTokens
  /\ JsMap.get token (ToneDirect.getThemeTokens theme true)
     = JsMap.get token (ToneDirect.getThemeTokens theme false).
Proof.
  intros Hpalettes Htoken. split; [exact Htoken|].
  rewrite !toneDirect_getThemeTokens. unfold scheme_of.
  pose proof (Hpalettes Palette.primary) as Hp.
  pose proof (Hpalettes Palette.secondary) as Hs.
  pose proof (Hpalettes Palette.tertiary) as Ht.
  pose proof (Hpalettes Palette.neutral) as Hn.
  simpl in Hp, Hs, Ht, Hn.
  simpl in Htoken.
  repeat (destruct Htoken as [<- | Htoken];
          [cbn; rewrite ?Hp, ?Hs, ?Ht, ?Hn; reflexivity|]).
  contradiction.
Qed.

End ProjectorExtras.

(** A scheme built with its roles at the light-mode stops, in light mode. *)
Lemma revisions_agree_when_roles_sit_at_stops_witness :
  RoleDirect.getThemeTokens (E := SampleEngine.engine)
    (SampleSchemes.sameSchemes (SampleSchemes.atLightStops 0x006494)) false
  = ToneDirect.getThemeTokens (E := SampleEngine.engine)
      (SampleSchemes.sameSchemes (SampleSchemes.atLightStops 0x006494)) false.
Proof.
  apply (@revisions_agree_when_roles_sit_at_stops SampleEngine.engine
           (SampleSchemes.sameSchemes (SampleSchemes.atLightStops 0x006494)) false).
  reflexivity.
Defined.

(** Two schemes with the same palettes and different roles. *)
Lemma toneDirect_reads_only_palettes_witness :
  ToneDirect.getThemeTokens (E := SampleEngine.engine)
    (SampleSchemes.sameSchemes (SampleSchemes.atLightStops (0x006494 + 0x2000))) false
  = ToneDirect.getThemeTokens (E := SampleEngine.engine)
      (SampleSchemes.sameSchemes (SampleEngine.scheme 2 0x006494 false 0%Q)) false.
Proof.
  apply (@toneDirect_reads_only_palettes SampleEngine.engine
           (SampleSchemes.sameSchemes (SampleSchemes.atLightStops (0x006494 + 0x2000)))
           (SampleSchemes.sameSchemes (SampleEngine.scheme 2 0x006494 false 0%Q))
           false).
  intros []; reflexivity.
Defined.

(** The primary-fixed token of a theme with one scheme for both modes. *)
Lemma toneDirect_fixed_tokens_same_in_both_modes_witness :
  In "--md-sys-color-primary-fixed" modeInvariantTokens
  /\ JsMap.get "--md-sys-color-primary-fixed"
       (ToneDirect.getThemeTokens (E := SampleEngine.engine)
          (SampleSchemes.sameSchemes (SampleEngine.scheme 2 0x006494 false 0%Q)) true)
     = JsMap.get "--md-sys-color-primary-fixed"
         (ToneDirect.getThemeTokens (E := SampleEngine.engine)
            (SampleSchemes.sameSchemes (SampleEngine.scheme 2 0x006494 false 0%Q)) false).
Proof.
  apply (@toneDirect_fixed_tokens_same_in_both_modes SampleEngine.engine
           (SampleSchemes.sameSchemes (SampleEngine.scheme 2 0x006494 false 0%Q))
           "--md-sys-color-primary-fixed").
  - intros palette. reflexivity.
  - simpl. tauto.
Defined.

(** ** More on the theme store *)

Section StoreExtras.
Context {E : PaletteEngine}.

Lemma toArgb_keeps_name_and_blend
    (defs : list CustomColorDef.t) (colors : list CustomColor.t) :
  mapM ProviderDefaultCtx.toArgb defs = Ok colors ->
  map CustomColor.name colors = map CustomColorDef.name defs
  /\ map CustomColor.blend colors = map CustomColorDef.blend defs.
Proof.
  revert colors. induction defs as [|def defs IH]; simpl; intros colors H.
  - injection H as <-. split; reflexivity.
  - apply bind_Ok_inv in H as (color & Hcolor & H).
    apply bind_Ok_inv in H as (rest & Hrest & H).
    injection H as <-.
    unfold ProviderDefaultCtx.toArgb in Hcolor.
    apply bind_Ok_inv in Hcolor as (value & _ & Hcolor).
    injection Hcolor as <-.
    destruct (IH rest Hrest) as [Hnames Hblends].
    simpl. rewrite Hnames, Hblends. split; reflexivity.
Qed.

(** X14.  In the earlier revision one custom color whose hex value does not
    parse blocks the whole update: although the source color is fine, the
    held theme stays, and the parse error goes to the diagnostic channel. *)
Theorem defaultCtx_bad_custom_color_blocks_update
    (props : ProviderDefaultCtx.Props.t) (s : Store.t) (argb : Z) (e : exn) :
  argbFromHex (Store.sourceColor s) = Ok argb ->
  mapM ProviderDefaultCtx.toArgb (ProviderDefaultCtx.Props.customColors props)
  = Throw e ->
  ProviderDefaultCtx.themeEffect props s
  = ({| Store.currentScheme := Store.currentScheme s;
        Store.materialTheme := Store.materialTheme s;
        Store.sourceColor := Store.sourceColor s;
        Store.console :=
          Store.console s ++ [("Error generating material theme:", e)] |}, Ok tt)
  /\ exists def,
       In def (ProviderDefaultCtx.Props.customColors props)
       /\ argbFromHex (CustomColorDef.value def) = Throw e.
Proof.
  intros Hargb Hcolors. split.
  - unfold ProviderDefaultCtx.themeEffect, ebind, gets, try_catch, lift. simpl.
    rewrite Hargb. simpl. rewrite Hcolors. reflexivity.
  - apply mapM_Throw_In in Hcolors as (def & Hin & Hdef).
    exists def. split; [exact Hin|].
    unfold ProviderDefaultCtx.toArgb in Hdef.
    apply bind_Throw_inv in Hdef as [Hdef | (value & _ & Hdef)];
      [exact Hdef | discriminate Hdef].
Qed.

(** X15.  In the earlier revision a successful build holds a FIDELITY theme
    of the source color with one group per custom-color definition of the
    props, in order, under the definition's name and blend flag (the engine
    keeping the definition in the group's [color]). *)
Theorem defaultCtx_theme_carries_custom_colors
    (props : ProviderDefaultCtx.Props.t) (s : Store.t) (argb : Z)
    (colors : list CustomColor.t) :
  (forall source c g, customColor source c = Ok g -> CustomColorGroup.color g = c) ->
  argbFromHex (Store.sourceColor s) = Ok argb ->
  mapM ProviderDefaultCtx.toArgb (ProviderDefaultCtx.Props.customColors props)
  = Ok colors ->
  engineReturns argb Variant.FIDELITY 0%Q colors = true ->
  exists theme,
    ProviderDefaultCtx.themeEffect props s
    = ({| Store.currentScheme := Store.currentScheme s;
          Store.materialTheme := Some theme;
          Store.sourceColor := Store.sourceColor s;
          Store.console := Store.console s |}, Ok tt)
    /\ MaterialTheme.source theme = argb
    /\ MaterialTheme.variant theme = Variant.FIDELITY
    /\ map (fun g => CustomColor.name (CustomColorGroup.color g))
         (MaterialTheme.customColors theme)
       = map CustomColorDef.name (ProviderDefaultCtx.Props.customColors props)
    /\ map (fun g => CustomColor.blend (CustomColorGroup.color g))
         (MaterialTheme.customColors theme)
       = map CustomColorDef.blend (ProviderDefaultCtx.Props.customColors props).
Proof.
  intros Hecho Hargb Hcolors Hret.
  destruct (createMaterialTheme_returns _ _ _ _ Hret) as [theme Htheme].
  exists theme. split.
  - unfold ProviderDefaultCtx.themeEffect, ebind, gets, try_catch, lift. simpl.
    rewrite Hargb. simpl. rewrite Hcolors. simpl. rewrite Htheme. reflexivity.
  - apply createMaterialTheme_Ok_inv in Htheme
      as (h & l & d & groups & _ & _ & _ & Hgroups & ->).
    simpl.
    assert (Hkept : map CustomColorGroup.color groups = colors).
    { eapply mapM_map_echo; [|exact Hgroups]. intros x y. apply Hecho. }
    destruct (toArgb_keeps_name_and_blend _ _ Hcolors) as [Hnames Hblends].
    repeat split.
    + rewrite <- Hnames, <- Hkept, map_map. reflexivity.
    + rewrite <- Hblends, <- Hkept, map_map. reflexivity.
Qed.

End StoreExtras.

(** A custom color with the value ["red"] next to a good source color. *)
Lemma defaultCtx_bad_custom_color_blocks_update_witness :
  ProviderDefaultCtx.themeEffect (E := SampleEngine.engine)
    {| ProviderDefaultCtx.Props.defaultSourceColor := "#006494";
       ProviderDefaultCtx.Props.isDark := false;
       ProviderDefaultCtx.Props.customColors :=
         [SampleEngine.brandDef;
          {| CustomColorDef.name := "accent";
             CustomColorDef.value := "red";
             CustomColorDef.blend := false |}] |}
    (storeOnMount "#006494")
  = ({| Store.currentScheme := None;
        Store.materialTheme := None;
        Store.sourceColor := "#006494";
        Store.console :=
          [] ++ [("Error generating material theme:", Error "unexpected hex red")] |},
     Ok tt)
  /\ exists def,
       In def
         [SampleEngine.brandDef;
          {| CustomColorDef.name := "accent";
             CustomColorDef.value := "red";
             CustomColorDef.blend := false |}]
       /\ @argbFromHex SampleEngine.engine (CustomColorDef.value def)
          = Throw (Error "unexpected hex red").
Proof.
  apply (@defaultCtx_bad_custom_color_blocks_update SampleEngine.engine
           {| ProviderDefaultCtx.Props.defaultSourceColor := "#006494";
              ProviderDefaultCtx.Props.isDark := false;
              ProviderDefaultCtx.Props.customColors :=
                [SampleEngine.brandDef;
                 {| CustomColorDef.name := "accent";
                    CustomColorDef.value := "red";
                    CustomColorDef.blend := false |}] |}
           (storeOnMount "#006494") 0xFF006494 (Error "unexpected hex red")).
  - reflexivity.
  - reflexivity.
Defined.

(** The brand color on a freshly mounted store. *)
Lemma defaultCtx_theme_carries_custom_colors_witness :
  exists theme,
    ProviderDefaultCtx.themeEffect (E := SampleEngine.engine)
      {| ProviderDefaultCtx.Props.defaultSourceColor := "#006494";
         ProviderDefaultCtx.Props.isDark := false;
         ProviderDefaultCtx.Props.customColors := [SampleEngine.brandDef] |}
      (storeOnMount "#006494")
    = ({| Store.currentScheme := None;
          Store.materialTheme := Some theme;
          Store.sourceColor := "#006494";
          Store.console := [] |}, Ok tt)
    /\ MaterialTheme.source theme = 0xFF006494
    /\ MaterialTheme.variant theme = Variant.FIDELITY
    /\ map (fun g => CustomColor.name (CustomColorGroup.color g))
         (MaterialTheme.customColors theme)
       = ["brand"]
    /\ map (fun g => CustomColor.blend (CustomColorGroup.color g))
         (MaterialTheme.customColors theme)
       = [true].
Proof.
  apply (@defaultCtx_theme_carries_custom_colors SampleEngine.engine
           {| ProviderDefaultCtx.Props.defaultSourceColor := "#006494";
              ProviderDefaultCtx.Props.isDark := false;
              ProviderDefaultCtx.Props.customColors := [SampleEngine.brandDef] |}
           (storeOnMount "#006494") 0xFF006494
           [{| CustomColor.value := 0xFFFF0000;
               CustomColor.name := "brand";
               CustomColor.blend := true |}]).
  - exact sample_custom_echo.
  - reflexivity.
  - reflexivity.
  - reflexivity.
Defined.

(** ** Publishing the tokens *)

Lemma JsMap_get_delete_same (k : string) (m : JsMap.t) :
  JsMap.get k (JsMap_delete k m) = None.
Proof.
  unfold JsMap_delete. induction m as [|[k' v'] m IH]; simpl; [reflexivity|].
  destruct (String.eqb_spec k' k) as [->|Hne]; simpl; [exact IH|].
  destruct (String.eqb_spec k' k) as [Heq|_]; [contradiction | exact IH].
Qed.

Lemma JsMap_get_delete_other (k k0 : string) (m : JsMap.t) :
  k0 <> k -> JsMap.get k (JsMap_delete k0 m) = JsMap.get k m.
Proof.
  unfold JsMap_delete. intros Hne. induction m as [|[k' v'] m IH]; simpl; [reflexivity|].
  destruct (String.eqb_spec k' k0) as [->|Hne']; simpl.
  - destruct (String.eqb_spec k0 k) as [Heq|_]; [contradiction | exact IH].
  - destruct (String.eqb_spec k' k); [reflexivity | exact IH].
Qed.

Lemma JsMap_keys_existsb (key : string) (m : JsMap.t) :
  existsb (String.eqb key) (JsMap.keys m)
  = match JsMap.get key m with Some _ => true | None => false end.
Proof.
  unfold JsMap.keys. induction m as [|[k' v'] m IH]; simpl; [reflexivity|].
  rewrite (String.eqb_sym key k').
  destruct (String.eqb k' key); simpl; [reflexivity | exact IH].
Qed.

Lemma JsMap_get_Some_value (key v : string) (m : JsMap.t) :
  JsMap.get key m = Some v -> In v (JsMap.values m).
Proof.
  unfold JsMap.values. induction m as [|[k' v'] m IH]; simpl; intros H; [discriminate H|].
  destruct (String.eqb k' key).
  - injection H as ->. left. reflexivity.
  - right. apply IH. exact H.
Qed.

Lemma JsMap_get_distinct (key : string) (m : JsMap.t) :
  distinct (JsMap.keys m) = true -> JsMap.get key m = lastBinding key m.
Proof.
  intros Hd. rewrite <- (JsMap_new_distinct m Hd) at 1.
  apply (JsMap_new_overlay m [] key).
Qed.

Lemma applyTokens_store (tokens : JsMap.t) (page : Page.t) :
  Page.store (JsMap_forEach (fun value key => Page.setProperty key value) tokens page)
  = Page.store page.
Proof.
  unfold JsMap_forEach. revert page.
  induction tokens as [|[k v] tokens IH]; simpl; intros page; [reflexivity|].
  rewrite IH. reflexivity.
Qed.

Lemma applyTokens_get (tokens : JsMap.t) (page : Page.t) (key : string) :
  JsMap.get key
    (Page.rootStyle
       (JsMap_forEach (fun value key => Page.setProperty key value) tokens page))
  = match lastBinding key tokens with
    | Some v => if String.eqb v "" then None else Some v
    | None => JsMap.get key (Page.rootStyle page)
    end.
Proof.
  unfold JsMap_forEach. revert page.
  induction tokens as [|[k v] tokens IH]; simpl; intros page; [reflexivity|].
  rewrite IH. destruct (lastBinding key tokens) as [v'|]; [reflexivity|].
  unfold Page.setProperty. cbn [Page.rootStyle].
  destruct (String.eqb_spec k key) as [->|Hne].
  - destruct (String.eqb v ""); [apply JsMap_get_delete_same | apply JsMap_get_set_same].
  - destruct (String.eqb v "");
      [apply JsMap_get_delete_other | apply JsMap_get_set_other]; exact Hne.
Qed.

Lemma applyTokens_on_empty_style (tokens : JsMap.t) (page : Page.t) :
  Page.rootStyle page = [] ->
  distinct (JsMap.keys tokens) = true ->
  Forall (fun v => String.eqb v "" = false) (JsMap.values tokens) ->
  Page.rootStyle
    (JsMap_forEach (fun value key => Page.setProperty key value) tokens page)
  = tokens.
Proof.
  intros Hempty Hd Hvalues.
  assert (Hfold :
            forall page0,
              Page.rootStyle
                (JsMap_forEach (fun value key => Page.setProperty key value) tokens page0)
              = fold_left (fun m kv => JsMap.set (fst kv) (snd kv) m) tokens
                  (Page.rootStyle page0)).
  { unfold JsMap_forEach, JsMap.values in *.
    induction tokens as [|[k v] tokens IH]; simpl; intros page0; [reflexivity|].
    inversion Hvalues as [|v0 vs Hv Hvs]; subst.
    simpl in Hd. apply andb_true_iff in Hd as [_ Hd].
    rewrite (IH Hd Hvs). simpl in Hv. simpl. rewrite Hv. reflexivity. }
  rewrite Hfold, Hempty. apply (JsMap_new_distinct tokens Hd).
Qed.

Lemma isHexColor_not_empty (v : string) :
  isHexColor v = true -> String.eqb v "" = false.
Proof. destruct v; [discriminate | reflexivity]. Qed.

Section PublishExtras.
Context {E : PaletteEngine}.

(** X16.  The publishing effect of the current provider does nothing while
    no theme is held; with a theme it stores the scheme selected by the
    mode, keeps theme, color and diagnostics, and sets each token of the
    projection as a property of the root element: afterwards a property
    reads the last value the projection has for it (none if that value is
    empty), and a property the projection does not bind is as before. *)
Theorem schemeEffect_sets_scheme_and_tokens
    (project : MaterialTheme.t -> bool -> JsMap.t)
    (props : Provider.Props.t) (page : Page.t) :
  match Store.materialTheme (Page.store page) with
  | None => ProviderPublish.schemeEffect project props page = page
  | Some theme =>
      let page' := ProviderPublish.schemeEffect project props page in
      Page.store page'
      = {| Store.currentScheme :=
             Some (scheme_of theme (Provider.Props.isDark props));
           Store.materialTheme := Some theme;
           Store.sourceColor := Store.sourceColor (Page.store page);
           Store.console := Store.console (Page.store page) |}
      /\ forall key,
           JsMap.get key (Page.rootStyle page')
           = match lastBinding key (project theme (Provider.Props.isDark props)) with
             | Some v => if String.eqb v "" then None else Some v
             | None => JsMap.get key (Page.rootStyle page)
             end
  end.
Proof.
  unfold ProviderPublish.schemeEffect.
  destruct (Store.materialTheme (Page.store page)) as [theme|] eqn:Htheme;
    [|reflexivity].
  cbv zeta. split.
  - rewrite applyTokens_store. unfold Page.setCurrentScheme, scheme_of. simpl.
    rewrite Htheme. reflexivity.
  - intros key. rewrite applyTokens_get. reflexivity.
Qed.

Lemma publish_get_tokens
    (tokens : JsMap.t) (page : Page.t) (key : string) :
  (forall argb, isHexColor (hexFromArgb argb) = true) ->
  JsMap.keys tokens = map cssVar canonicalTokenNames ->
  (exists colors, JsMap.values tokens = map hexFromArgb colors) ->
  JsMap.get key
    (Page.rootStyle
       (JsMap_forEach (fun value key => Page.setProperty key value) tokens page))
  = if existsb (String.eqb key) (map cssVar canonicalTokenNames)
    then JsMap.get key tokens
    else JsMap.get key (Page.rootStyle page).
Proof.
  intros Hwf Hkeys [colors Hvalues].
  rewrite applyTokens_get, <- Hkeys, JsMap_keys_existsb.
  rewrite <- (JsMap_get_distinct key tokens) by (rewrite Hkeys; reflexivity).
  destruct (JsMap.get key tokens) as [v|] eqn:Hget; [|reflexivity].
  pose proof (JsMap_get_Some_value key v tokens Hget) as Hv'.
  rewrite Hvalues in Hv'. apply in_map_iff in Hv' as (argb & <- & _).
  rewrite (isHexColor_not_empty _ (Hwf argb)). reflexivity.
Qed.

(** X17.  Publishing replaces the token properties and nothing else: after
    the effect, whatever the root style held before (the tokens of the
    other mode, say), each of the 49 token properties has the value of the
    current projection and every other property has its earlier value;
    this for both revisions of [getThemeTokens], the engine's hex colors
    being of the ["#rrggbb"] form. *)
Theorem publish_replaces_tokens_keeps_rest
    (props : Provider.Props.t) (page : Page.t) (theme : MaterialTheme.t)
    (key : string) :
  (forall argb, isHexColor (hexFromArgb argb) = true) ->
  Store.materialTheme (Page.store page) = Some theme ->
  JsMap.get key
    (Page.rootStyle (ProviderPublish.schemeEffect RoleDirect.getThemeTokens props page))
  = (if existsb (String.eqb key) (map cssVar canonicalTokenNames)
     then JsMap.get key (RoleDirect.getThemeTokens theme (Provider.Props.isDark props))
     else JsMap.get key (Page.rootStyle page))
  /\ JsMap.get key
       (Page.rootStyle (ProviderPublish.schemeEffect ToneDirect.getThemeTokens props page))
     = (if existsb (String.eqb key) (map cssVar canonicalTokenNames)
        then JsMap.get key (ToneDirect.getThemeTokens theme (Provider.Props.isDark props))
        else JsMap.get key (Page.rootStyle page)).
Proof.
  intros Hwf Htheme. unfold ProviderPublish.schemeEffect. rewrite Htheme. cbv zeta.
  split.
  - rewrite publish_get_tokens;
      [reflexivity | exact Hwf | apply roleDirect_keys | apply roleDirect_values].
  - rewrite publish_get_tokens; [reflexivity | exact Hwf | |].
    + rewrite toneDirect_getThemeTokens. apply tokensOfStops_keys.
    + rewrite toneDirect_getThemeTokens. apply tokensOfStops_values.
Qed.

(** X18.  The earlier revision split the effect in two; run one after the
    other, in either order, its scheme effect and its token effect do what
    the single effect of the current provider does. *)
Theorem split_effects_compose_to_schemeEffect
    (project : MaterialTheme.t -> bool -> JsMap.t)
    (props : Provider.Props.t) (props0 : ProviderDefaultCtx.Props.t)
    (page : Page.t) :
  ProviderDefaultCtx.Props.isDark props0 = Provider.Props.isDark props ->
  ProviderDefaultCtxPublish.tokensEffect project props0
    (ProviderDefaultCtxPublish.schemeEffect props0 page)
  = ProviderPublish.schemeEffect project props page
  /\ ProviderDefaultCtxPublish.schemeEffect props0
       (ProviderDefaultCtxPublish.tokensEffect project props0 page)
     = ProviderPublish.schemeEffect project props page.
Proof.
  intros HisDark.
  unfold ProviderDefaultCtxPublish.tokensEffect, ProviderDefaultCtxPublish.schemeEffect,
    ProviderPublish.schemeEffect.
  rewrite HisDark.
  destruct (Store.materialTheme (Page.store page)) as [theme|] eqn:Htheme.
  - split.
    + simpl. rewrite Htheme. reflexivity.
    + rewrite applyTokens_store, Htheme.
      set (scheme := if Provider.Props.isDark props then _ else _).
      set (tokens := project theme (Provider.Props.isDark props)).
      unfold JsMap_forEach. clearbody scheme tokens. clear Htheme.
      revert page. induction tokens as [|[k v] tokens IH]; intros page; simpl.
      * reflexivity.
      * rewrite IH. reflexivity.
  - rewrite Htheme. split; reflexivity.
Qed.

(** X19.  The scheme the later text computes at render is the scheme the
    scheme effect would store for the same store and mode; and with no
    theme held it is [null], where the effect keeps whatever was stored. *)
Theorem getCurrentScheme_is_schemeEffect_result
    (props : ProviderDefaultCtx.Props.t) (page : Page.t) :
  match Store.materialTheme (Page.store page) with
  | Some theme =>
      ProviderComputedScheme.getCurrentScheme props (Page.store page)
      = Store.currentScheme
          (Page.store (ProviderDefaultCtxPublish.schemeEffect props page))
      /\ ProviderComputedScheme.getCurrentScheme props (Page.store page)
         = Some (scheme_of theme (ProviderDefaultCtx.Props.isDark props))
  | None =>
      ProviderComputedScheme.getCurrentScheme props (Page.store page) = None
      /\ ProviderDefaultCtxPublish.schemeEffect props page = page
  end.
Proof.
  unfold ProviderComputedScheme.getCurrentScheme, ProviderDefaultCtxPublish.schemeEffect.
  destruct (Store.materialTheme (Page.store page)) as [theme|]; split; reflexivity.
Qed.

Lemma schemeEffect_store
    (project : MaterialTheme.t -> bool -> JsMap.t)
    (props : Provider.Props.t) (page : Page.t) (theme : MaterialTheme.t) :
  Store.materialTheme (Page.store page) = Some theme ->
  Page.store (ProviderPublish.schemeEffect project props page)
  = {| Store.currentScheme := Some (scheme_of theme (Provider.Props.isDark props));
       Store.materialTheme := Some theme;
       Store.sourceColor := Store.sourceColor (Page.store page);
       Store.console := Store.console (Page.store page) |}.
Proof.
  intros Htheme. unfold ProviderPublish.schemeEffect. rewrite Htheme. cbv zeta.
  rewrite applyTokens_store. unfold Page.setCurrentScheme, scheme_of.
  cbn [Page.store]. rewrite Htheme. reflexivity.
Qed.

Lemma schemeEffect_get_roleDirect
    (props : Provider.Props.t) (page : Page.t) (theme : MaterialTheme.t)
    (key : string) :
  (forall argb, isHexColor (hexFromArgb argb) = true) ->
  Store.materialTheme (Page.store page) = Some theme ->
  JsMap.get key
    (Page.rootStyle (ProviderPublish.schemeEffect RoleDirect.getThemeTokens props page))
  = if existsb (String.eqb key) (map cssVar canonicalTokenNames)
    then JsMap.get key (RoleDirect.getThemeTokens theme (Provider.Props.isDark props))
    else JsMap.get key (Page.rootStyle page).
Proof.
  intros Hwf Htheme. unfold ProviderPublish.schemeEffect. rewrite Htheme. cbv zeta.
  rewrite publish_get_tokens;
    [reflexivity | exact Hwf | apply roleDirect_keys | apply roleDirect_values].
Qed.

Lemma schemeEffect_get_toneDirect
    (props : Provider.Props.t) (page : Page.t) (theme : MaterialTheme.t)
    (key : string) :
  (forall argb, isHexColor (hexFromArgb argb) = true) ->
  Store.materialTheme (Page.store page) = Some theme ->
  JsMap.get key
    (Page.rootStyle (ProviderPublish.schemeEffect ToneDirect.getThemeTokens props page))
  = if existsb (String.eqb key) (map cssVar canonicalTokenNames)
    then JsMap.get key (ToneDirect.getThemeTokens theme (Provider.Props.isDark props))
    else JsMap.get key (Page.rootStyle page).
Proof.
  intros Hwf Htheme. unfold ProviderPublish.schemeEffect. rewrite Htheme. cbv zeta.
  rewrite publish_get_tokens; [reflexivity | exact Hwf | |].
  - rewrite toneDirect_getThemeTokens. apply tokensOfStops_keys.
  - rewrite toneDirect_getThemeTokens. apply tokensOfStops_values.
Qed.

Lemma hex_values_not_empty (tokens : JsMap.t) :
  (forall argb, isHexColor (hexFromArgb argb) = true) ->
  (exists colors, JsMap.values tokens = map hexFromArgb colors) ->
  Forall (fun v => String.eqb v "" = false) (JsMap.values tokens).
Proof.
  intros Hwf [colors ->]. apply Forall_forall. intros v Hv.
  apply in_map_iff in Hv as (c & <- & _).
  apply isHexColor_not_empty. apply Hwf.
Qed.

(** X11.  Setting a new source color whose theme builds, followed by the
    second effect that the replaced theme makes due: nothing is thrown or
    reported; the store holds that color, exactly the theme
    [createMaterialTheme] returns for the parsed color with the provider's
    variant, contrast 0 and no custom colors, and that theme's scheme for
    the mode; each token property of the root style reads the projection of
    that theme and every other property is as before. *)
Theorem setSourceColor_then_publish
    (props : Provider.Props.t) (page : Page.t) (newColor : string)
    (argb : Z) (theme : MaterialTheme.t) :
  (forall argb, isHexColor (hexFromArgb argb) = true) ->
  newColor <> Store.sourceColor (Page.store page) ->
  argbFromHex newColor = Ok argb ->
  createMaterialTheme argb (Provider.Props.variant props) 0%Q default_customColors
  = Ok theme ->
  let built := Provider.onSetSourceColor props newColor (Page.store page) in
  let settled project :=
    ProviderPublish.schemeEffect project props
      {| Page.store := fst built; Page.rootStyle := Page.rootStyle page |} in
  snd built = Ok tt
  /\ Store.materialTheme (fst built) = Some theme
  /\ (forall project,
        Page.store (settled project)
        = {| Store.currentScheme :=
               Some (scheme_of theme (Provider.Props.isDark props));
             Store.materialTheme := Some theme;
             Store.sourceColor := newColor;
             Store.console := Store.console (Page.store page) |})
  /\ (forall key,
        JsMap.get key (Page.rootStyle (settled RoleDirect.getThemeTokens))
        = if existsb (String.eqb key) (map cssVar canonicalTokenNames)
          then JsMap.get key
                 (RoleDirect.getThemeTokens theme (Provider.Props.isDark props))
          else JsMap.get key (Page.rootStyle page))
  /\ (forall key,
        JsMap.get key (Page.rootStyle (settled ToneDirect.getThemeTokens))
        = if existsb (String.eqb key) (map cssVar canonicalTokenNames)
          then JsMap.get key
                 (ToneDirect.getThemeTokens theme (Provider.Props.isDark props))
          else JsMap.get key (Page.rootStyle page)).
Proof.
  intros Hwf Hnew Hargb Htheme. cbv zeta.
  assert (Hbuilt :
            Provider.onSetSourceColor props newColor (Page.store page)
            = ({| Store.currentScheme := Store.currentScheme (Page.store page);
                  Store.materialTheme := Some theme;
                  Store.sourceColor := newColor;
                  Store.console := Store.console (Page.store page) |}, Ok tt)).
  { unfold Provider.onSetSourceColor, Provider.rerender, Provider.deps_eqb,
      Provider.themeEffect_deps.
    cbn [setSourceColor fst snd Store.sourceColor].
    rewrite Z.eqb_refl, andb_true_r.
    destruct (String.eqb_spec (Store.sourceColor (Page.store page)) newColor)
      as [Heq|_].
    - exfalso. apply Hnew. symmetry. exact Heq.
    - pose proof (themeEffect_success props
                    (fst (setSourceColor newColor (Page.store page)))
                    argb theme Hargb Htheme) as Heffect.
      cbn [setSourceColor fst] in Heffect. rewrite Heffect. reflexivity. }
  rewrite Hbuilt. cbn [fst snd Store.materialTheme].
  split; [reflexivity|]. split; [reflexivity|]. split; [|split].
  - intros project. rewrite (schemeEffect_store project props _ theme); reflexivity.
  - intros key. rewrite (schemeEffect_get_roleDirect props _ theme key Hwf); reflexivity.
  - intros key. rewrite (schemeEffect_get_toneDirect props _ theme key Hwf); reflexivity.
Qed.

(** X13.  A render that changes the variant and not the mode makes the
    theme effect due; that effect, followed by the second effect that the
    replaced theme makes due, leaves the store with exactly the theme
    [createMaterialTheme] returns for the held source color and the new
    variant, and with that theme's scheme for the mode; nothing is thrown
    or reported. *)
Theorem variant_change_then_publish
    (props props' : Provider.Props.t) (page : Page.t)
    (argb : Z) (theme : MaterialTheme.t) :
  Provider.Props.variant props' <> Provider.Props.variant props ->
  Provider.Props.isDark props' = Provider.Props.isDark props ->
  argbFromHex (Store.sourceColor (Page.store page)) = Ok argb ->
  createMaterialTheme argb (Provider.Props.variant props') 0%Q default_customColors
  = Ok theme ->
  Provider.deps_eqb (Provider.themeEffect_deps props (Page.store page))
    (Provider.themeEffect_deps props' (Page.store page)) = false
  /\ snd (Provider.themeEffect props' (Page.store page)) = Ok tt
  /\ (forall project,
        Page.store
          (ProviderPublish.schemeEffect project props'
             {| Page.store := fst (Provider.themeEffect props' (Page.store page));
                Page.rootStyle := Page.rootStyle page |})
        = {| Store.currentScheme :=
               Some (scheme_of theme (Provider.Props.isDark props'));
             Store.materialTheme := Some theme;
             Store.sourceColor := Store.sourceColor (Page.store page);
             Store.console := Store.console (Page.store page) |}).
Proof.
  intros Hvariant _ Hargb Htheme. split; [|split].
  - unfold Provider.deps_eqb, Provider.themeEffect_deps. cbn [fst snd].
    rewrite String.eqb_refl. simpl.
    destruct (Z.eqb_spec (Provider.Props.variant props)
                (Provider.Props.variant props')) as [Heq|_]; [|reflexivity].
    exfalso. apply Hvariant. symmetry. exact Heq.
  - apply themeEffect_never_throws.
  - intros project.
    rewrite (themeEffect_success props' (Page.store page) argb theme Hargb Htheme).
    rewrite (schemeEffect_store project props' _ theme); reflexivity.
Qed.

(** X20.  Mounting the current provider on a source color whose theme
    builds: the second effect of the first commit finds no theme and does
    nothing; the theme effect holds exactly the theme [createMaterialTheme]
    returns for the parsed color, the provider's variant, contrast 0 and no
    custom colors; the second effect of the next commit, on an untouched
    root element, stores that theme's scheme for the mode and leaves the
    root style equal to the token map of that theme and mode, 49
    properties in the projection's order.  Nothing is reported. *)
Theorem mount_then_publish
    (props : Provider.Props.t) (argb : Z) (theme : MaterialTheme.t) :
  (forall argb, isHexColor (hexFromArgb argb) = true) ->
  argbFromHex (Provider.Props.defaultSourceColor props) = Ok argb ->
  createMaterialTheme argb (Provider.Props.variant props) 0%Q default_customColors
  = Ok theme ->
  let settled project :=
    ProviderPublish.schemeEffect project props
      {| Page.store := fst (Provider.mount props); Page.rootStyle := [] |} in
  (forall project,
     ProviderPublish.schemeEffect project props
       {| Page.store := storeOnMount (Provider.Props.defaultSourceColor props);
          Page.rootStyle := [] |}
     = {| Page.store := storeOnMount (Provider.Props.defaultSourceColor props);
          Page.rootStyle := [] |})
  /\ Provider.mount props
     = ({| Store.currentScheme := None;
           Store.materialTheme := Some theme;
           Store.sourceColor := Provider.Props.defaultSourceColor props;
           Store.console := [] |}, Ok tt)
  /\ (forall project,
        Page.store (settled project)
        = {| Store.currentScheme :=
               Some (scheme_of theme (Provider.Props.isDark props));
             Store.materialTheme := Some theme;
             Store.sourceColor := Provider.Props.defaultSourceColor props;
             Store.console := [] |})
  /\ Page.rootStyle (settled RoleDirect.getThemeTokens)
     = RoleDirect.getThemeTokens theme (Provider.Props.isDark props)
  /\ Page.rootStyle (settled ToneDirect.getThemeTokens)
     = ToneDirect.getThemeTokens theme (Provider.Props.isDark props).
Proof.
  intros Hwf Hargb Htheme. cbv zeta.
  assert (Hmount :
            Provider.mount props
            = ({| Store.currentScheme := None;
                  Store.materialTheme := Some theme;
                  Store.sourceColor := Provider.Props.defaultSourceColor props;
                  Store.console := [] |}, Ok tt)).
  { unfold Provider.mount.
    rewrite (themeEffect_success props
               (storeOnMount (Provider.Props.defaultSourceColor props))
               argb theme Hargb Htheme).
    reflexivity. }
  split; [intros project; reflexivity|].
  split; [exact Hmount|].
  rewrite Hmount. cbn [fst]. split; [|split].
  - intros project. rewrite (schemeEffect_store project props _ theme); reflexivity.
  - unfold ProviderPublish.schemeEffect.
    cbn [Page.store Store.materialTheme]. cbv zeta.
    apply applyTokens_on_empty_style; [reflexivity | |].
    + rewrite roleDirect_keys. reflexivity.
    + apply hex_values_not_empty; [exact Hwf | apply roleDirect_values].
  - unfold ProviderPublish.schemeEffect.
    cbn [Page.store Store.materialTheme]. cbv zeta.
    apply applyTokens_on_empty_style; [reflexivity | |].
    + rewrite toneDirect_getThemeTokens, tokensOfStops_keys. reflexivity.
    + apply hex_values_not_empty; [exact Hwf|].
      rewrite toneDirect_getThemeTokens. apply tokensOfStops_values.
Qed.

End PublishExtras.

(** A root style holding a stale primary token, published to in dark mode. *)
Lemma publish_replaces_tokens_keeps_rest_witness :
  let props :=
    {| Provider.Props.isDark := true;
       Provider.Props.variant := Variant.TONAL_SPOT;
       Provider.Props.defaultSourceColor := "#006494";
       Provider.Props.customColors := [] |} in
  let theme := SampleEngine.theme 0x006494 Variant.TONAL_SPOT in
  let page :=
    {| Page.store := SampleSchemes.storeWith (Some theme);
       Page.rootStyle := [("--md-sys-color-primary", "#ffffff"); ("color", "red")] |} in
  JsMap.get "--md-sys-color-primary"
    (Page.rootStyle
       (ProviderPublish.schemeEffect
          (RoleDirect.getThemeTokens (E := SampleEngine.engine)) props page))
  = (if existsb (String.eqb "--md-sys-color-primary") (map cssVar canonicalTokenNames)
     then JsMap.get "--md-sys-color-primary"
            (RoleDirect.getThemeTokens (E := SampleEngine.engine) theme
               (Provider.Props.isDark props))
     else JsMap.get "--md-sys-color-primary" (Page.rootStyle page))
  /\ JsMap.get "--md-sys-color-primary"
       (Page.rootStyle
          (ProviderPublish.schemeEffect
             (ToneDirect.getThemeTokens (E := SampleEngine.engine)) props page))
     = (if existsb (String.eqb "--md-sys-color-primary") (map cssVar canonicalTokenNames)
        then JsMap.get "--md-sys-color-primary"
               (ToneDirect.getThemeTokens (E := SampleEngine.engine) theme
                  (Provider.Props.isDark props))
        else JsMap.get "--md-sys-color-primary" (Page.rootStyle page)).
Proof.
  cbv zeta.
  apply (@publish_replaces_tokens_keeps_rest SampleEngine.engine
           {| Provider.Props.isDark := true;
              Provider.Props.variant := Variant.TONAL_SPOT;
              Provider.Props.defaultSourceColor := "#006494";
              Provider.Props.customColors := [] |}
           {| Page.store :=
                SampleSchemes.storeWith
                  (Some (SampleEngine.theme 0x006494 Variant.TONAL_SPOT));
              Page.rootStyle :=
                [("--md-sys-color-primary", "#ffffff"); ("color", "red")] |}
           (SampleEngine.theme 0x006494 Variant.TONAL_SPOT)
           "--md-sys-color-primary").
  - exact sample_toHex_wf.
  - reflexivity.
Defined.

(** Both orders of the split effects, in dark mode, on a held theme. *)
Lemma split_effects_compose_to_schemeEffect_witness :
  let project := ToneDirect.getThemeTokens (E := SampleEngine.engine) in
  let props :=
    {| Provider.Props.isDark := true;
       Provider.Props.variant := Variant.FIDELITY;
       Provider.Props.defaultSourceColor := "#006494";
       Provider.Props.customColors := [] |} in
  let props0 :=
    {| ProviderDefaultCtx.Props.defaultSourceColor := "#006494";
       ProviderDefaultCtx.Props.isDark := true;
       ProviderDefaultCtx.Props.customColors := [] |} in
  let page :=
    {| Page.store :=
         SampleSchemes.storeWith (Some (SampleEngine.theme 0x006494 Variant.FIDELITY));
       Page.rootStyle := [] |} in
  ProviderDefaultCtxPublish.tokensEffect project props0
    (ProviderDefaultCtxPublish.schemeEffect props0 page)
  = ProviderPublish.schemeEffect project props page
  /\ ProviderDefaultCtxPublish.schemeEffect props0
       (ProviderDefaultCtxPublish.tokensEffect project props0 page)
     = ProviderPublish.schemeEffect project props page.
Proof.
  cbv zeta.
  apply (@split_effects_compose_to_schemeEffect
           (ToneDirect.getThemeTokens (E := SampleEngine.engine))
           {| Provider.Props.isDark := true;
              Provider.Props.variant := Variant.FIDELITY;
              Provider.Props.defaultSourceColor := "#006494";
              Provider.Props.customColors := [] |}
           {| ProviderDefaultCtx.Props.defaultSourceColor := "#006494";
              ProviderDefaultCtx.Props.isDark := true;
              ProviderDefaultCtx.Props.customColors := [] |}
           {| Page.store :=
                SampleSchemes.storeWith
                  (Some (SampleEngine.theme 0x006494 Variant.FIDELITY));
              Page.rootStyle := [] |}).
  reflexivity.
Defined.

(** The test's transition: a store on ["#006494"] is given ["#ff0000"]. *)
Lemma setSourceColor_then_publish_witness :
  let props := Provider.Props.defaults in
  let page :=
    {| Page.store := storeOnMount "#006494";
       Page.rootStyle := [("--md-sys-color-primary", "#ffffff"); ("color", "red")] |} in
  let theme := SampleEngine.theme 0xFFFF0000 Variant.FIDELITY in
  let built :=
    Provider.onSetSourceColor (E := SampleEngine.engine) props "#ff0000"
      (Page.store page) in
  let settled project :=
    ProviderPublish.schemeEffect project props
      {| Page.store := fst built; Page.rootStyle := Page.rootStyle page |} in
  snd built = Ok tt
  /\ Store.materialTheme (fst built) = Some theme
  /\ (forall project,
        Page.store (settled project)
        = {| Store.currentScheme :=
               Some (scheme_of theme (Provider.Props.isDark props));
             Store.materialTheme := Some theme;
             Store.sourceColor := "#ff0000";
             Store.console := Store.console (Page.store page) |})
  /\ (forall key,
        JsMap.get key
          (Page.rootStyle
             (settled (RoleDirect.getThemeTokens (E := SampleEngine.engine))))
        = if existsb (String.eqb key) (map cssVar canonicalTokenNames)
          then JsMap.get key
                 (RoleDirect.getThemeTokens (E := SampleEngine.engine) theme
                    (Provider.Props.isDark props))
          else JsMap.get key (Page.rootStyle page))
  /\ (forall key,
        JsMap.get key
          (Page.rootStyle
             (settled (ToneDirect.getThemeTokens (E := SampleEngine.engine))))
        = if existsb (String.eqb key) (map cssVar canonicalTokenNames)
          then JsMap.get key
                 (ToneDirect.getThemeTokens (E := SampleEngine.engine) theme
                    (Provider.Props.isDark props))
          else JsMap.get key (Page.rootStyle page)).
Proof.
  cbv zeta.
  apply (@setSourceColor_then_publish SampleEngine.engine
           Provider.Props.defaults
           {| Page.store := storeOnMount "#006494";
              Page.rootStyle :=
                [("--md-sys-color-primary", "#ffffff"); ("color", "red")] |}
           "#ff0000" 0xFFFF0000
           (SampleEngine.theme 0xFFFF0000 Variant.FIDELITY)).
  - exact sample_toHex_wf.
  - intros H. discriminate H.
  - reflexivity.
  - reflexivity.
Defined.

(** A render that switches a store holding a FIDELITY theme to VIBRANT. *)
Lemma variant_change_then_publish_witness :
  let props := Provider.Props.defaults in
  let props' :=
    {| Provider.Props.isDark := false;
       Provider.Props.variant := Variant.VIBRANT;
       Provider.Props.defaultSourceColor := "#6D509F";
       Provider.Props.customColors := [] |} in
  let page :=
    {| Page.store :=
         SampleSchemes.storeWith
           (Some (SampleEngine.theme 0xFF006494 Variant.FIDELITY));
       Page.rootStyle := [] |} in
  let theme := SampleEngine.theme 0xFF006494 Variant.VIBRANT in
  Provider.deps_eqb (Provider.themeEffect_deps props (Page.store page))
    (Provider.themeEffect_deps props' (Page.store page)) = false
  /\ snd (Provider.themeEffect (E := SampleEngine.engine) props' (Page.store page))
     = Ok tt
  /\ (forall project,
        Page.store
          (ProviderPublish.schemeEffect project props'
             {| Page.store :=
                  fst (Provider.themeEffect (E := SampleEngine.engine) props'
                         (Page.store page));
                Page.rootStyle := Page.rootStyle page |})
        = {| Store.currentScheme :=
               Some (scheme_of theme (Provider.Props.isDark props'));
             Store.materialTheme := Some theme;
             Store.sourceColor := Store.sourceColor (Page.store page);
             Store.console := Store.console (Page.store page) |}).
Proof.
  cbv zeta.
  apply (@variant_change_then_publish SampleEngine.engine
           Provider.Props.defaults
           {| Provider.Props.isDark := false;
              Provider.Props.variant := Variant.VIBRANT;
              Provider.Props.defaultSourceColor := "#6D509F";
              Provider.Props.customColors := [] |}
           {| Page.store :=
                SampleSchemes.storeWith
                  (Some (SampleEngine.theme 0xFF006494 Variant.FIDELITY));
              Page.rootStyle := [] |}
           0xFF006494
           (SampleEngine.theme 0xFF006494 Variant.VIBRANT)).
  - intros H. discriminate H.
  - reflexivity.
  - reflexivity.
  - reflexivity.
Defined.

(** The provider of the tests: [defaultSourceColor="#006494"], dark mode. *)
Lemma mount_then_publish_witness :
  let props :=
    {| Provider.Props.isDark := true;
       Provider.Props.variant := Variant.FIDELITY;
       Provider.Props.defaultSourceColor := "#006494";
       Provider.Props.customColors := [] |} in
  let theme := SampleEngine.theme 0xFF006494 Variant.FIDELITY in
  let settled project :=
    ProviderPublish.schemeEffect project props
      {| Page.store := fst (Provider.mount (E := SampleEngine.engine) props);
         Page.rootStyle := [] |} in
  (forall project,
     ProviderPublish.schemeEffect project props
       {| Page.store := storeOnMount (Provider.Props.defaultSourceColor props);
          Page.rootStyle := [] |}
     = {| Page.store := storeOnMount (Provider.Props.defaultSourceColor props);
          Page.rootStyle := [] |})
  /\ Provider.mount (E := SampleEngine.engine) props
     = ({| Store.currentScheme := None;
           Store.materialTheme := Some theme;
           Store.sourceColor := Provider.Props.defaultSourceColor props;
           Store.console := [] |}, Ok tt)
  /\ (forall project,
        Page.store (settled project)
        = {| Store.currentScheme :=
               Some (scheme_of theme (Provider.Props.isDark props));
             Store.materialTheme := Some theme;
             Store.sourceColor := Provider.Props.defaultSourceColor props;
             Store.console := [] |})
  /\ Page.rootStyle
       (settled (RoleDirect.getThemeTokens (E := SampleEngine.engine)))
     = RoleDirect.getThemeTokens (E := SampleEngine.engine) theme
         (Provider.Props.isDark props)
  /\ Page.rootStyle
       (settled (ToneDirect.getThemeTokens (E := SampleEngine.engine)))
     = ToneDirect.getThemeTokens (E := SampleEngine.engine) theme
         (Provider.Props.isDark props).
Proof.
  cbv zeta.
  apply (@mount_then_publish SampleEngine.engine
           {| Provider.Props.isDark := true;
              Provider.Props.variant := Variant.FIDELITY;
              Provider.Props.defaultSourceColor := "#006494";
              Provider.Props.customColors := [] |}
           0xFF006494
           (SampleEngine.theme 0xFF006494 Variant.FIDELITY)).
  - exact sample_toHex_wf.
  - reflexivity.
  - reflexivity.
Defined.

Section MountFailure.
Context {E : PaletteEngine}.

(** X21.  When no theme can be built for the default source color, the
    mounted provider stays without theme and scheme, the error is its one
    diagnostic, and its publishing effect sets no property on the root
    element. *)
Theorem failed_mount_publishes_nothing
    (project : MaterialTheme.t -> bool -> JsMap.t)
    (props : Provider.Props.t) (rootStyle : JsMap.t) (e : exn) :
  (argbColor <- argbFromHex (Provider.Props.defaultSourceColor props) ;;
   createMaterialTheme argbColor (Provider.Props.variant props) 0%Q
     default_customColors) = Throw e ->
  Provider.mount props
  = ({| Store.currentScheme := None;
        Store.materialTheme := None;
        Store.sourceColor := Provider.Props.defaultSourceColor props;
        Store.console := [("Error generating material theme:", e)] |}, Ok tt)
  /\ ProviderPublish.schemeEffect project props
       {| Page.store := fst (Provider.mount props); Page.rootStyle := rootStyle |}
     = {| Page.store := fst (Provider.mount props); Page.rootStyle := rootStyle |}.
Proof.
  intros Hfail.
  assert (Hmount :
            Provider.mount props
            = ({| Store.currentScheme := None;
                  Store.materialTheme := None;
                  Store.sourceColor := Provider.Props.defaultSourceColor props;
                  Store.console := [("Error generating material theme:", e)] |},
               Ok tt)).
  { unfold Provider.mount.
    rewrite (themeEffect_failure props
               (storeOnMount (Provider.Props.defaultSourceColor props)) e Hfail).
    reflexivity. }
  split; [exact Hmount|].
  rewrite Hmount. reflexivity.
Qed.

End MountFailure.

(** A provider mounted on the malformed color ["#12"]. *)
Lemma failed_mount_publishes_nothing_witness :
  let props :=
    {| Provider.Props.isDark := false;
       Provider.Props.variant := Variant.FIDELITY;
       Provider.Props.defaultSourceColor := "#12";
       Provider.Props.customColors := [] |} in
  Provider.mount (E := SampleEngine.engine) props
  = ({| Store.currentScheme := None;
        Store.materialTheme := None;
        Store.sourceColor := Provider.Props.defaultSourceColor props;
        Store.console :=
          [("Error generating material theme:", Error "unexpected hex 12")] |}, Ok tt)
  /\ ProviderPublish.schemeEffect
       (RoleDirect.getThemeTokens (E := SampleEngine.engine)) props
       {| Page.store := fst (Provider.mount (E := SampleEngine.engine) props);
          Page.rootStyle := [("color", "red")] |}
     = {| Page.store := fst (Provider.mount (E := SampleEngine.engine) props);
          Page.rootStyle := [("color", "red")] |}.
Proof.
  cbv zeta.
  apply (@failed_mount_publishes_nothing SampleEngine.engine
           (RoleDirect.getThemeTokens (E := SampleEngine.engine))
           {| Provider.Props.isDark := false;
              Provider.Props.variant := Variant.FIDELITY;
              Provider.Props.defaultSourceColor := "#12";
              Provider.Props.customColors := [] |}
           [("color", "red")] (Error "unexpected hex 12")).
  reflexivity.
Defined.
